(** * Word-of-the-Day bot: a shallow embedding of [main.py]

    The script keeps two PostgreSQL tables ([users], [content]), asks a
    text-generation service for a vocabulary word, stores the word when it
    is new and sends it to every subscribed chat.

    Conventions of the embedding:
    - a Python [str] is a [string] holding its UTF-8 encoding;
    - a Python [int] is a [Z]; chat identifiers are Telegram's 64-bit
      identifiers, which the [BIGINT] column holds;
    - [None]-or-[str] values are [option string];
    - a call either returns or raises: [outcome];
    - the database, the console and the counters of calls made to the
      outside world form the [World]; procedures are state transformers
      that keep the world also when they raise. *)

From Stdlib Require Import String Ascii List ZArith Lia Bool Arith.
From Stdlib Require Import DecimalString.
Import ListNotations.
Open Scope string_scope.
Open Scope nat_scope.

(* ================================================================== *)
(** ** Exceptions and outcomes *)

Inductive exn_class : Type :=
| ConnectionError      (* requests.post could not reach the service *)
| JSONDecodeError      (* response.json() on a body that is not JSON *)
| KeyError
| IndexError
| TypeError
| AttributeError
| UniqueViolation      (* psycopg.errors.UniqueViolation *)
| NotNullViolation     (* psycopg.errors.NotNullViolation *)
| TelegramError        (* telegram.error.TelegramError and subclasses *)
| CancelledError.      (* asyncio.CancelledError: a BaseException *)

Record exn : Type := Exn { exn_cls : exn_class; exn_msg : string }.

(** [isinstance(e, Exception)]: everything above but [CancelledError],
    which derives from [BaseException] only. *)
Definition is_Exception (e : exn) : bool :=
  match exn_cls e with
  | CancelledError => false
  | _ => true
  end.

Inductive outcome (A : Type) : Type :=
| Return (a : A)
| Raise (e : exn).
Arguments Return {A} a.
Arguments Raise {A} e.

Definition obind {A B} (o : outcome A) (k : A -> outcome B) : outcome B :=
  match o with
  | Return a => k a
  | Raise e => Raise e
  end.

Declare Scope outcome_scope.
Delimit Scope outcome_scope with outcome.
Notation "'let?' x ':=' e 'in' k" := (obind e (fun x => k))
  (at level 10, x name, e at level 100, k at level 200) : outcome_scope.

(* ================================================================== *)
(** ** Python string methods used by the script *)

Module PyStr.

Definition LF : string := String "010"%char EmptyString.

Definition code (c : ascii) : nat := nat_of_ascii c.

(** One-byte white space of [str.isspace]: U+0009..U+000D, U+001C..U+0020. *)
Definition space1 (c : ascii) : bool :=
  let n := code c in
  ((9 <=? n) && (n <=? 13)) || ((28 <=? n) && (n <=? 32)).

(** Two-byte white space: U+0085 (C2 85) and U+00A0 (C2 A0). *)
Definition space2 (a b : ascii) : bool :=
  (code a =? 194) && ((code b =? 133) || (code b =? 160)).

(** Three-byte white space: U+1680 (E1 9A 80), U+2000..U+200A
    (E2 80 80..8A), U+2028, U+2029, U+202F (E2 80 A8/A9/AF),
    U+205F (E2 81 9F), U+3000 (E3 80 80). *)
Definition space3 (a b c : ascii) : bool :=
  ((code a =? 225) && (code b =? 154) && (code c =? 128))
  || ((code a =? 226) && (code b =? 128)
      && (((128 <=? code c) && (code c <=? 138))
          || (code c =? 168) || (code c =? 169) || (code c =? 175)))
  || ((code a =? 226) && (code b =? 129) && (code c =? 159))
  || ((code a =? 227) && (code b =? 128) && (code c =? 128)).

(** Drops leading white space; [two] and [three] recognise the
    multi-byte characters in the order the bytes are met. *)
Fixpoint drop_space (two : ascii -> ascii -> bool)
    (three : ascii -> ascii -> ascii -> bool) (s : string) : string :=
  match s with
  | EmptyString => EmptyString
  | String a s1 =>
    if space1 a then drop_space two three s1 else
    match s1 with
    | EmptyString => s
    | String b s2 =>
      if two a b then drop_space two three s2 else
      match s2 with
      | EmptyString => s
      | String c s3 => if three a b c then drop_space two three s3 else s
      end
    end
  end.

Definition reverse (s : string) : string :=
  string_of_list_ascii (rev (list_ascii_of_string s)).

Definition lstrip (s : string) : string := drop_space space2 space3 s.

Definition rstrip (s : string) : string :=
  reverse (drop_space (fun a b => space2 b a) (fun a b c => space3 c b a)
             (reverse s)).

(** [s.strip()] *)
Definition strip (s : string) : string := rstrip (lstrip s).

(** [s.split(sep)] for a non-empty [sep]: the occurrences of [sep] are
    found from the left and do not overlap.  [skip] counts the bytes of
    the separator just found that are still to be passed over; [cur] is
    the part being collected. *)
Fixpoint split_from (sep : string) (skip : nat) (cur s : string)
  : list string :=
  match s with
  | EmptyString => [cur]
  | String c s' =>
    match skip with
    | S k => split_from sep k cur s'
    | O =>
      if prefix sep s
      then cur :: split_from sep (String.length sep - 1) EmptyString s'
      else split_from sep 0 (cur ++ String c EmptyString) s'
    end
  end.

Definition split (sep s : string) : list string :=
  split_from sep 0 EmptyString s.

(** [s.replace(old, new)] for a non-empty [old]: every occurrence, from
    the left, without overlap. *)
Fixpoint replace_from (old new : string) (skip : nat) (s : string)
  : string :=
  match s with
  | EmptyString => EmptyString
  | String c s' =>
    match skip with
    | S k => replace_from old new k s'
    | O =>
      if prefix old s
      then new ++ replace_from old new (String.length old - 1) s'
      else String c (replace_from old new 0 s')
    end
  end.

Definition replace (old new s : string) : string :=
  replace_from old new 0 s.

(** Number of bytes of the UTF-8 character that starts with [c]. *)
Definition utf8_width (c : ascii) : nat :=
  let n := code c in
  if n <? 128 then 1 else if n <? 224 then 2 else if n <? 240 then 3 else 4.

(** [s[0]]: the first character, [IndexError] on the empty string. *)
Definition first_char (s : string) : outcome string :=
  match s with
  | EmptyString => Raise (Exn IndexError "string index out of range")
  | String c _ => Return (substring 0 (utf8_width c) s)
  end.

(** [str(n)] for an [int]. *)
Definition str_of_int (n : Z) : string := NilZero.string_of_int (Z.to_int n).

(** [str(v)] as an f-string field prints it, for a value that is [None]
    or a [str]. *)
Definition str_of (v : option string) : string :=
  match v with
  | Some s => s
  | None => "None"
  end.

(** Truth value of a value that is [None] or a [str]. *)
Definition truthy (v : option string) : bool :=
  match v with
  | Some EmptyString => false
  | Some _ => true
  | None => false
  end.

(** [l[i]] on a list. *)
Definition getitem {A} (l : list A) (i : nat) : outcome A :=
  match nth_error l i with
  | Some a => Return a
  | None => Raise (Exn IndexError "list index out of range")
  end.

End PyStr.


(* ================================================================== *)
(** ** The text-generation service and [generate_word] *)

(** What [json.loads] builds. *)
#[local] Set Warnings "-register-all".
Inductive json_value : Type :=
| JNull
| JBool (b : bool)
| JNumber (literal : string)
| JString (s : string)
| JArray (items : list json_value)
| JObject (fields : list (string * json_value)).

(** [v[key]] for a [str] key. *)
Definition subscript_key (v : json_value) (key : string)
  : outcome json_value :=
  match v with
  | JObject fields =>
    match find (fun kv => (fst kv =? key)%string) fields with
    | Some kv => Return (snd kv)
    | None => Raise (Exn KeyError key)
    end
  | JArray _ =>
    Raise (Exn TypeError "list indices must be integers or slices, not str")
  | JString _ =>
    Raise (Exn TypeError "string indices must be integers, not 'str'")
  | JNull | JBool _ | JNumber _ =>
    Raise (Exn TypeError "object is not subscriptable")
  end.

(** [v[0]] *)
Definition subscript_zero (v : json_value) : outcome json_value :=
  match v with
  | JArray items => PyStr.getitem items 0
  | JString s =>
    match PyStr.first_char s with
    | Return c => Return (JString c)
    | Raise e => Raise e
    end
  | JObject _ => Raise (Exn KeyError "0")
  | JNull | JBool _ | JNumber _ =>
    Raise (Exn TypeError "object is not subscriptable")
  end.

(** [v.strip()]: only a [str] has the method. *)
Definition method_strip (v : json_value) : outcome string :=
  match v with
  | JString s => Return (PyStr.strip s)
  | _ => Raise (Exn AttributeError "object has no attribute 'strip'")
  end.

(** The [requests.Response] fields the script reads; [json] is what
    [response.json()] returns or raises. *)
Record response : Type := {
  status_code : Z;
  text : string;
  json : outcome json_value
}.

(** The triple of values that [generate_word] and [get_new_unique_word]
    return: each component is [None] or a [str]. *)
Definition word_triple : Type :=
  (option string * option string * option string)%type.

Definition failure : word_triple := (None, None, None).

Definition blank_line : string := PyStr.LF ++ PyStr.LF.

Local Open Scope outcome_scope.

(** [response.json()["choices"][0]["message"]["content"]] *)
Definition message_field (r : response) : outcome json_value :=
  let? body := json r in
  let? choices := subscript_key body "choices" in
  let? choice := subscript_zero choices in
  let? message := subscript_key choice "message" in
  subscript_key message "content".

(** [response.json()["choices"][0]["message"]["content"].strip()],
    evaluated before the [try]. *)
Definition message_content (r : response) : outcome string :=
  let? content := message_field r in
  method_strip content.

(** The body of the [try]. *)
Definition parse_content (content : string)
  : outcome (string * string * string) :=
  let parts := PyStr.split blank_line content in
  let? p0 := PyStr.getitem parts 0 in
  let word := PyStr.strip (PyStr.replace "Word: " "" p0) in
  let? p1 := PyStr.getitem parts 1 in
  let meaning := PyStr.strip (PyStr.replace "Meaning: " "" p1) in
  let? p2 := PyStr.getitem parts 2 in
  let example := PyStr.strip (PyStr.replace "Example: " "" p2) in
  Return (word, meaning, example).

(** [try: ... except: return None, None, None] *)
Definition try_parse (content : string) : word_triple :=
  match parse_content content with
  | Return (word, meaning, example) => (Some word, Some meaning, Some example)
  | Raise _ => failure
  end.

(** [generate_word()], as a function of what [requests.post] gave: the
    lines it prints and what it returns or raises. *)
Definition generate_word (posted : outcome response)
  : list string * outcome word_triple :=
  match posted with
  | Raise e => ([], Raise e)
  | Return r =>
    if (status_code r =? 200)%Z
    then ([], let? content := message_content r in
              Return (try_parse content))
    else ([text r], Return failure)
  end.

Local Close Scope outcome_scope.

(* ================================================================== *)
(** ** The database *)

(** A row of [users]. *)
Record user_row : Type := {
  user_id : Z;
  chat_id : Z;
  subscribed : bool;
  user_created_at : Z
}.

(** A row of [content]. *)
Record content_row : Type := {
  content_id : Z;
  word : string;
  meaning : string;
  example : string;
  content_created_at : Z
}.

(** The two tables, rows in insertion order, and the two [SERIAL]
    sequences (the value [nextval] hands out next). *)
Record DB : Type := {
  users : list user_row;
  users_id_seq : Z;
  content : list content_row;
  content_id_seq : Z
}.

(** The tables right after [CREATE TABLE IF NOT EXISTS] on a new
    database. *)
Definition empty_db : DB :=
  {| users := []; users_id_seq := 1; content := []; content_id_seq := 1 |}.

Definition set_subscribed (b : bool) (r : user_row) : user_row :=
  {| user_id := user_id r; chat_id := chat_id r; subscribed := b;
     user_created_at := user_created_at r |}.

(** [UPDATE users SET subscribed = b WHERE chat_id = c] on the rows. *)
Definition update_subscribed (b : bool) (c : Z) (rows : list user_row)
  : list user_row :=
  map (fun r => if (chat_id r =? c)%Z then set_subscribed b r else r) rows.

(** [INSERT INTO users (chat_id) VALUES (c) ON CONFLICT (chat_id) DO
    UPDATE SET subscribed = TRUE]: the row in conflict is updated, else
    a row with the column defaults is added.  [nextval] is taken for the
    proposed row in both cases. *)
Definition sql_subscribe (now : Z) (c : Z) (d : DB) : outcome unit * DB :=
  let rows :=
    if existsb (fun r => (chat_id r =? c)%Z) (users d)
    then update_subscribed true c (users d)
    else (users d ++ [{| user_id := users_id_seq d; chat_id := c;
                         subscribed := true; user_created_at := now |}])%list
  in
  (Return tt,
   {| users := rows; users_id_seq := users_id_seq d + 1;
      content := content d; content_id_seq := content_id_seq d |}).

(** [UPDATE users SET subscribed = FALSE WHERE chat_id = c] *)
Definition sql_unsubscribe (c : Z) (d : DB) : outcome unit * DB :=
  (Return tt,
   {| users := update_subscribed false c (users d);
      users_id_seq := users_id_seq d;
      content := content d; content_id_seq := content_id_seq d |}).

(** [SELECT chat_id FROM users WHERE subscribed = TRUE] *)
Definition sql_subscribed (d : DB) : list Z :=
  map chat_id (filter subscribed (users d)).

Section Store.

(** PostgreSQL's [LOWER] on [text]; which characters it folds depends on
    the locale of the database. *)
Variable LOWER : string -> string.

(** [SELECT 1 FROM content WHERE LOWER(word) = LOWER(w)], then
    [fetchone() is not None].  With [None] for the parameter the
    comparison is never true.  The parameter is a text PostgreSQL
    takes: for a [str] with a NUL byte the driver raises a [DataError]
    instead of running the statement, which is not modelled. *)
Definition sql_word_exists (w : option string) (d : DB) : bool :=
  match w with
  | Some s => existsb (fun r => (LOWER (word r) =? LOWER s)%string) (content d)
  | None => false
  end.

End Store.

(** [INSERT INTO content (word, meaning, example) VALUES (w, m, e)].
    The columns are [NOT NULL]; [word] is [UNIQUE], which compares the
    texts as they are.  [nextval] is taken before the constraints are
    checked.  The errors modelled are those of the two constraints; a
    text with a NUL byte ([DataError]) and a word too long for the
    index of [UNIQUE] ([ProgramLimitExceeded]) make the real statement
    raise as well, without a row being added, and are not modelled. *)
Definition sql_insert_content (now : Z) (w m e : option string) (d : DB)
  : outcome unit * DB :=
  let taken :=
    {| users := users d; users_id_seq := users_id_seq d;
       content := content d; content_id_seq := content_id_seq d + 1 |} in
  match w, m, e with
  | Some w, Some m, Some e =>
    if existsb (fun r => (word r =? w)%string) (content d)
    then (Raise (Exn UniqueViolation
                   "duplicate key value violates unique constraint"), taken)
    else
      (Return tt,
       {| users := users d; users_id_seq := users_id_seq d;
          content := (content d ++
                      [{| content_id := content_id_seq d; word := w;
                          meaning := m; example := e;
                          content_created_at := now |}])%list;
          content_id_seq := content_id_seq d + 1 |})
  | _, _, _ =>
    (Raise (Exn NotNullViolation
              "null value in column violates not-null constraint"), taken)
  end.

(* ================================================================== *)
(** ** The world and the procedures of the script *)

(** What a run can change or observe: the database, the number of SQL
    statements executed, the number of [generate_word()] calls made, the
    [send_message] calls attempted (oldest first) and the lines printed. *)
Record World : Type := {
  db : DB;
  statements : nat;
  generated : nat;
  sent : list (Z * string);
  stdout : list string
}.

Definition fresh_world : World :=
  {| db := empty_db; statements := 0; generated := 0; sent := [];
     stdout := [] |}.

(** A procedure: from a world to what it returns or raises and the world
    it leaves. *)
Definition M (A : Type) : Type := World -> outcome A * World.

Definition ret {A} (a : A) : M A := fun w => (Return a, w).

Definition bind {A B} (m : M A) (k : A -> M B) : M B :=
  fun w =>
    match m w with
    | (Return a, w') => k a w'
    | (Raise e, w') => (Raise e, w')
    end.

Declare Scope proc_scope.
Delimit Scope proc_scope with proc.
Bind Scope proc_scope with M.
Notation "x <- m ;; k" := (bind m (fun x => k))
  (at level 61, m at next level, right associativity) : proc_scope.
Notation "m ;; k" := (bind m (fun _ => k))
  (at level 61, right associativity) : proc_scope.

(** [try: body except Exception as e: handler(e)] *)
Definition try_except_Exception {A} (body : M A) (handler : exn -> M A)
  : M A :=
  fun w =>
    match body w with
    | (Return a, w') => (Return a, w')
    | (Raise e, w') =>
      if is_Exception e then handler e w' else (Raise e, w')
    end.

(** [for x in l: body(x)] *)
Fixpoint for_each {A} (l : list A) (body : A -> M unit) : M unit :=
  match l with
  | [] => ret tt
  | x :: rest => bind (body x) (fun _ => for_each rest body)
  end.

(** [print(line)] *)
Definition print (line : string) : M unit :=
  fun w =>
    (Return tt,
     {| db := db w; statements := statements w; generated := generated w;
        sent := sent w; stdout := (stdout w ++ [line])%list |}).

(** What one call of [generate_word()] does: the lines it prints and
    what it returns or raises.  A generator gives this for the first,
    second, ... call. *)
Definition generator : Type := nat -> list string * outcome word_triple.

(** The generator of the script: the k-th call posts the k-th request. *)
Definition live_generator (requests_post : nat -> outcome response)
  : generator :=
  fun k => generate_word (requests_post k).

Section Bot.

Variable LOWER : string -> string.

(** [CURRENT_TIMESTAMP] when the k-th statement runs. *)
Variable CURRENT_TIMESTAMP : nat -> Z.

(** The word generator called by the resolver. *)
Variable word_generator : generator.

(** [bot.send_message(chat_id, text)]: what the k-th call does. *)
Variable bot_send_message : nat -> Z -> string -> outcome unit.

(** [cur.execute(...)] of one statement, autocommitted. *)
Definition execute {A} (stmt : Z -> DB -> outcome A * DB) : M A :=
  fun w =>
    let (r, d) := stmt (CURRENT_TIMESTAMP (statements w)) (db w) in
    (r, {| db := d; statements := S (statements w);
           generated := generated w; sent := sent w; stdout := stdout w |}).

Definition subscribe_user (c : Z) : M unit :=
  execute (fun now d => sql_subscribe now c d).

Definition unsubscribe_user (c : Z) : M unit :=
  execute (fun _ d => sql_unsubscribe c d).

Definition get_subscribed_users : M (list Z) :=
  execute (fun _ d => (Return (sql_subscribed d), d)).

Definition word_exists (w : option string) : M bool :=
  execute (fun _ d => (Return (sql_word_exists LOWER w d), d)).

Definition save_content (w m e : option string) : M unit :=
  execute (fun now d => sql_insert_content now w m e d).

(** One call of [generate_word()]. *)
Definition call_generate_word : M word_triple :=
  fun w =>
    let (printed, r) := word_generator (generated w) in
    (r, {| db := db w; statements := statements w;
           generated := S (generated w); sent := sent w;
           stdout := (stdout w ++ printed)%list |}).

Local Open Scope proc_scope.

(** [for _ in range(n): ...] of [get_new_unique_word], followed by the
    [return None, None, None] after the loop. *)
Fixpoint get_new_unique_word_loop (n : nat) : M word_triple :=
  match n with
  | O => ret failure
  | S k =>
    t <- call_generate_word ;;
    let '(word, meaning, example) := t in
    if negb (PyStr.truthy word) then get_new_unique_word_loop k
    else
      found <- word_exists word ;;
      if negb found
      then save_content word meaning example ;; ret (word, meaning, example)
      else get_new_unique_word_loop k
  end.

Definition get_new_unique_word : M word_triple :=
  get_new_unique_word_loop 5.

Definition send_message (c : Z) (message : string) : M unit :=
  fun w =>
    (bot_send_message (List.length (sent w)) c message,
     {| db := db w; statements := statements w; generated := generated w;
        sent := (sent w ++ [(c, message)])%list; stdout := stdout w |}).

(** The f-string of [send_daily_word]. *)
Definition daily_message (word meaning example : option string) : string :=
  PyStr.LF ++ "📘 Word of the Day" ++ blank_line
  ++ "🔤 Word: " ++ PyStr.str_of word ++ blank_line
  ++ "📖 Meaning: " ++ PyStr.str_of meaning ++ blank_line
  ++ "📝 Example: " ++ PyStr.str_of example ++ PyStr.LF.

(** The loop of [send_daily_word] over the subscribed chats. *)
Definition broadcast (message : string) (chats : list Z) : M unit :=
  for_each chats (fun c =>
    try_except_Exception (send_message c message)
      (fun e => print ("Failed to send to " ++ PyStr.str_of_int c ++ ": "
                       ++ exn_msg e))).

Definition send_daily_word : M unit :=
  t <- get_new_unique_word ;;
  let '(word, meaning, example) := t in
  if negb (PyStr.truthy word) then print "Failed to generate unique word."
  else
    chats <- get_subscribed_users ;;
    broadcast (daily_message word meaning example) chats.

Local Close Scope proc_scope.

End Bot.

(* ================================================================== *)
(** ** Vocabulary of the properties *)

Section Vocabulary.

Variable LOWER : string -> string.

(** The entry [r] holds the word [x], letter case aside. *)
Definition same_word (x : string) (r : content_row) : bool :=
  (LOWER (word r) =? LOWER x)%string.

(** The entries of the store that hold [x], letter case aside. *)
Definition entries_of (x : string) (d : DB) : list content_row :=
  filter (same_word x) (content d).

(** The store has no two entries with the same word, letter case aside. *)
Definition content_unique (d : DB) : Prop :=
  NoDup (map (fun r => LOWER (word r)) (content d)).

(** An attempt that makes the resolver go on: the generator returned no
    word ([None] or the empty string) or a word the store [d] has. *)
Definition unsuccessful (d : DB) (a : list string * outcome word_triple)
  : bool :=
  match snd a with
  | Return (w, _, _) => negb (PyStr.truthy w) || sql_word_exists LOWER w d
  | Raise _ => false
  end.

End Vocabulary.

(** At most one row per chat: the [UNIQUE] constraint of [users]. *)
Definition users_unique (d : DB) : Prop := NoDup (map chat_id (users d)).

(** The rows of [users] for the chat [c]. *)
Definition records_of (c : Z) (d : DB) : list user_row :=
  filter (fun r => (chat_id r =? c)%Z) (users d).

(** The row [r'] is the row [r] with at most the flag changed. *)
Definition same_but_flag (r r' : user_row) : Prop :=
  user_id r' = user_id r /\ chat_id r' = chat_id r
  /\ user_created_at r' = user_created_at r.

(** The world once [generate_word()] has been called and has printed
    [printed]. *)
Definition called (printed : list string) (w : World) : World :=
  {| db := db w; statements := statements w; generated := S (generated w);
     sent := sent w; stdout := (stdout w ++ printed)%list |}.

(** The world once a statement that changes nothing has run. *)
Definition queried (w : World) : World :=
  {| db := db w; statements := S (statements w); generated := generated w;
     sent := sent w; stdout := stdout w |}.

(** A generator stub: every call returns the same triple and prints
    nothing. *)
Definition stub (t : word_triple) : generator := fun _ => ([], Return t).

(** The generator [g] with every empty word turned into the failure
    triple. *)
Definition empty_as_failure (g : generator) : generator :=
  fun k =>
    match g k with
    | (printed, Return (Some EmptyString, _, _)) => (printed, Return failure)
    | a => a
    end.

(** The registry commands a chat can give. *)
Inductive command : Type :=
| Subscribe (c : Z)
| Unsubscribe (c : Z).

Definition command_chat (op : command) : Z :=
  match op with
  | Subscribe c => c
  | Unsubscribe c => c
  end.

Section Commands.

Variable CURRENT_TIMESTAMP : nat -> Z.

(** The commands [ops] handled one after the other. *)
Fixpoint handle_all (ops : list command) : M unit :=
  match ops with
  | [] => ret tt
  | Subscribe c :: rest =>
    bind (subscribe_user CURRENT_TIMESTAMP c) (fun _ => handle_all rest)
  | Unsubscribe c :: rest =>
    bind (unsubscribe_user CURRENT_TIMESTAMP c) (fun _ => handle_all rest)
  end.

End Commands.

Section Runs.

Variable LOWER : string -> string.
Variable word_generator : generator.

(** How [n] attempts of the resolver, started in [w], can end: with
    what result and in which world. *)
Inductive resolver_run (w : World) (n : nat)
  : outcome word_triple -> World -> Prop :=
| run_exhausted w' :
    (forall j, j < n ->
       unsuccessful LOWER (db w) (word_generator (generated w + j)) = true) ->
    db w' = db w ->
    generated w' = generated w + n ->
    sent w' = sent w ->
    resolver_run w n (Return failure) w'
| run_found k s m e now w' :
    k < n ->
    (forall j, j < k ->
       unsuccessful LOWER (db w) (word_generator (generated w + j)) = true) ->
    snd (word_generator (generated w + k)) = Return (Some s, Some m, Some e) ->
    s <> EmptyString ->
    sql_word_exists LOWER (Some s) (db w) = false ->
    content (db w')
    = (content (db w) ++
       [{| content_id := content_id_seq (db w); word := s; meaning := m;
           example := e; content_created_at := now |}])%list ->
    users (db w') = users (db w) ->
    generated w' = generated w + S k ->
    sent w' = sent w ->
    resolver_run w n (Return (Some s, Some m, Some e)) w'
| run_raised k e w' :
    k < n ->
    (forall j, j < k ->
       unsuccessful LOWER (db w) (word_generator (generated w + j)) = true) ->
    unsuccessful LOWER (db w) (word_generator (generated w + k)) = false ->
    content (db w') = content (db w) ->
    users (db w') = users (db w) ->
    generated w' = generated w + S k ->
    sent w' = sent w ->
    resolver_run w n (Raise e) w'.

End Runs.

Section Transport.

Variable bot_send_message : nat -> Z -> string -> outcome unit.

(** The lines [broadcast] prints for the chats whose delivery raises an
    [Exception], when the first delivery is the k-th call of the
    transport. *)
Fixpoint failure_log (message : string) (k : nat) (chats : list Z)
  : list string :=
  match chats with
  | [] => []
  | c :: rest =>
    match bot_send_message k c message with
    | Return _ => failure_log message (S k) rest
    | Raise e =>
      ("Failed to send to " ++ PyStr.str_of_int c ++ ": " ++ exn_msg e)
        :: failure_log message (S k) rest
    end
  end.

(** No delivery to one of [chats] ends with a [BaseException] that is
    not an [Exception]. *)
Definition only_delivery_errors (message : string) (chats : list Z) : Prop :=
  forall k c e,
    In c chats -> bot_send_message k c message = Raise e ->
    is_Exception e = true.

End Transport.

(* ================================================================== *)
(** ** Instances used in the examples *)

(** [LOWER] on the ASCII letters. *)
Definition ascii_lower (c : ascii) : ascii :=
  let n := nat_of_ascii c in
  if (65 <=? n) && (n <=? 90) then ascii_of_nat (n + 32) else c.

Fixpoint lower_ascii (s : string) : string :=
  match s with
  | EmptyString => EmptyString
  | String c s' => String (ascii_lower c) (lower_ascii s')
  end.

Definition noon : nat -> Z := fun _ => 43200%Z.

Definition lucid : word_triple :=
  (Some "lucid", Some "clear", Some "a lucid explanation").

(** A store that holds "lucid". *)
Definition lucid_db : DB :=
  {| users := []; users_id_seq := 1;
     content := [{| content_id := 1; word := "lucid"; meaning := "clear";
                    example := "a lucid explanation";
                    content_created_at := 0 |}];
     content_id_seq := 2 |}.

Definition lucid_world : World :=
  {| db := lucid_db; statements := 2; generated := 1; sent := [];
     stdout := [] |}.

(** A 200 response whose message content is [s]. *)
Definition completion (s : string) : response :=
  {| status_code := 200; text := "";
     json := Return (JObject [("choices",
               JArray [JObject [("message",
                 JObject [("role", JString "assistant");
                          ("content", JString s)])]])]) |}.

Definition three_paragraphs : string :=
  "Word: Lucid" ++ blank_line ++ "Meaning: clear and easy to understand"
  ++ blank_line ++ "Example: She gave a lucid explanation.".


Definition two_paragraphs : string :=
  "Word: Lucid" ++ blank_line ++ "Meaning: clear and easy to understand".

Definition empty_word_paragraphs : string :=
  "Word: " ++ blank_line ++ "Meaning: nothing" ++ blank_line
  ++ "Example: none".

(** A transport on which the chat 2 has blocked the bot. *)
Definition blocked_2 : nat -> Z -> string -> outcome unit :=
  fun _ c _ =>
    if (c =? 2)%Z
    then Raise (Exn TelegramError "Forbidden: bot was blocked by the user")
    else Return tt.

(* ================================================================== *)
(** ** The command handlers *)

(** The handlers read [update.effective_chat.id]: the chat that sent
    the command, given here as their argument. *)
Module Handlers.

Section Handlers.

Variable LOWER : string -> string.
Variable CURRENT_TIMESTAMP : nat -> Z.
Variable word_generator : generator.
Variable bot_send_message : nat -> Z -> string -> outcome unit.

Local Open Scope proc_scope.

Definition apology : string := "⚠️ Couldn't generate a new word. Try again.".

(** The f-string of [regenerate_word]. *)
Definition new_word_message (word meaning example : option string)
  : string :=
  PyStr.LF ++ "📘 New Word For You" ++ blank_line
  ++ "🔤 Word: " ++ PyStr.str_of word ++ blank_line
  ++ "📖 Meaning: " ++ PyStr.str_of meaning ++ blank_line
  ++ "📝 Example: " ++ PyStr.str_of example ++ PyStr.LF.

(** The [/iknow] handler. *)
Definition regenerate_word (chat : Z) : M unit :=
  t <- get_new_unique_word LOWER CURRENT_TIMESTAMP word_generator ;;
  let '(word, meaning, example) := t in
  if negb (PyStr.truthy word)
  then send_message bot_send_message chat apology
  else send_message bot_send_message chat
         (new_word_message word meaning example).

Definition subscribed_reply : string := "✅ Subscribed to Word of the Day!".

Definition unsubscribed_reply : string := "❌ Unsubscribed successfully.".

(** The [/subscribe] handler. *)
Definition subscribe (chat : Z) : M unit :=
  subscribe_user CURRENT_TIMESTAMP chat ;;
  send_message bot_send_message chat subscribed_reply.

(** The [/unsubscribe] handler. *)
Definition unsubscribe (chat : Z) : M unit :=
  unsubscribe_user CURRENT_TIMESTAMP chat ;;
  send_message bot_send_message chat unsubscribed_reply.

Local Close Scope proc_scope.

End Handlers.

End Handlers.

(** ** Further vocabulary *)

(** [fields[key]] of a JSON object, when the key is there. *)
Definition field (key : string) (fields : list (string * json_value))
  : option json_value :=
  option_map snd (find (fun kv => (fst kv =? key)%string) fields).

(** The body that [generate_word] can read a content from:
    [{"choices": [{"message": {"content": v, ...}, ...}, ...], ...}]. *)
Definition carries_content (r : response) (v : json_value) : Prop :=
  exists f0 f1 f2 others,
    json r = Return (JObject f0)
    /\ field "choices" f0 = Some (JArray (JObject f1 :: others))
    /\ field "message" f1 = Some (JObject f2)
    /\ field "content" f2 = Some v.

(** What [generate_word] makes of one paragraph: the label removed
    wherever it occurs, then the white space at both ends. *)
Definition tidy (label part : string) : string :=
  PyStr.strip (PyStr.replace label "" part).

(** The reply the prompt asks for. *)
Definition formatted (w m e : string) : string :=
  "Word: " ++ w ++ blank_line ++ "Meaning: " ++ m ++ blank_line
  ++ "Example: " ++ e.

(** The text has no line feed. *)
Fixpoint one_line (s : string) : bool :=
  match s with
  | EmptyString => true
  | String c s' => negb (c =? "010")%char && one_line s'
  end.

(** The text ends with an ASCII character that is not white space. *)
Fixpoint ends_visible (s : string) : bool :=
  match s with
  | EmptyString => false
  | String c EmptyString => (PyStr.code c <? 128) && negb (PyStr.space1 c)
  | String _ s' => ends_visible s'
  end.

(** The body of a reply, as [generate_word] prints it. *)
Definition reply_text (posted : outcome response) : string :=
  match posted with
  | Return r => text r
  | Raise _ => EmptyString
  end.

(** A reply with a status other than 200. *)
Definition refused (posted : outcome response) : bool :=
  match posted with
  | Return r => negb (status_code r =? 200)%Z
  | Raise _ => false
  end.

(* ================================================================== *)
(** * Properties *)

(** ** String methods on examples *)

Example split_paragraphs :
  PyStr.split blank_line
    ("Word: a" ++ blank_line ++ "Meaning: b" ++ PyStr.LF ++ "c"
       ++ blank_line ++ PyStr.LF ++ "x")
  = ["Word: a"; "Meaning: b" ++ PyStr.LF ++ "c"; PyStr.LF ++ "x"].
Proof. reflexivity. Qed.

Example split_empty : PyStr.split blank_line "" = [""].
Proof. reflexivity. Qed.

Example split_trailing :
  PyStr.split blank_line ("a" ++ blank_line) = ["a"; ""].
Proof. reflexivity. Qed.

Example replace_all : PyStr.replace "Word: " "" "Word: a Word: b" = "a b".
Proof. reflexivity. Qed.

Example strip_both :
  PyStr.strip ("  " ++ PyStr.LF ++ "lucid mind " ++ PyStr.LF) = "lucid mind".
Proof. reflexivity. Qed.

(** U+00A0 and U+2003 are white space for [strip]; the bytes of U+00E9
    are not. *)
Example strip_wide :
  PyStr.strip (String "194" (String "160" ("caf" ++ String "195"
                 (String "169" (String "226" (String "128"
                 (String "131" EmptyString)))))))
  = "caf" ++ String "195" (String "169" EmptyString).
Proof. reflexivity. Qed.

Example str_of_int_neg : PyStr.str_of_int (-1001234) = "-1001234".
Proof. reflexivity. Qed.

Example str_of_int_zero : PyStr.str_of_int 0 = "0".
Proof. reflexivity. Qed.

(** [split] always gives at least one part. *)
Lemma split_from_not_nil sep s : forall skip cur,
  PyStr.split_from sep skip cur s <> [].
Proof.
  induction s as [|c s IH]; intros skip cur; cbn [PyStr.split_from].
  - discriminate.
  - destruct skip as [|k]; [|apply IH].
    destruct (prefix sep (String c s)); [discriminate | apply IH].
Qed.

(** ** Stripping does not add paragraphs *)

Section Paragraphs.

(** The number of parts [split] gives from a position on. *)
Local Abbreviation parts_from skip s :=
  (List.length (PyStr.split_from blank_line skip EmptyString s)).

Lemma split_from_length_cur sep s : forall skip cur cur',
  List.length (PyStr.split_from sep skip cur s)
  = List.length (PyStr.split_from sep skip cur' s).
Proof.
  induction s as [|c s IH]; intros skip cur cur'; cbn [PyStr.split_from].
  - reflexivity.
  - destruct skip as [|k]; [|apply IH].
    destruct (prefix sep (String c s)); cbn [List.length]; auto.
Qed.

Lemma prefix_blank_line s :
  prefix blank_line s
  = match s with
    | String a (String b _) => (a =? "010")%char && (b =? "010")%char
    | _ => false
    end.
Proof.
  unfold blank_line, PyStr.LF. cbn [append prefix].
  destruct s as [|a [|b s]]; cbn [prefix].
  - reflexivity.
  - destruct (ascii_dec "010" a); reflexivity.
  - destruct (ascii_dec "010" a) as [<-|Na].
    + destruct (ascii_dec "010" b) as [<-|Nb]; [destruct s; reflexivity|].
      symmetry. apply andb_false_intro2. apply Ascii.eqb_neq. congruence.
    + symmetry. apply andb_false_intro1. apply Ascii.eqb_neq. congruence.
Qed.

Lemma parts_from_nil skip : parts_from skip EmptyString = 1.
Proof. reflexivity. Qed.

Lemma parts_from_skip k c s : parts_from (S k) (String c s) = parts_from k s.
Proof. reflexivity. Qed.

Lemma parts_from_here c s :
  parts_from 0 (String c s)
  = if prefix blank_line (String c s) then S (parts_from 1 s)
    else parts_from 0 s.
Proof.
  cbn [PyStr.split_from].
  destruct (prefix blank_line (String c s)); [reflexivity|].
  apply split_from_length_cur.
Qed.

Lemma parts_from_positive skip s : 1 <= parts_from skip s.
Proof.
  pose proof (split_from_not_nil blank_line s skip EmptyString) as N.
  destruct (PyStr.split_from blank_line skip EmptyString s);
    [contradiction | cbn; lia].
Qed.

(** One more character in front: the same number of parts or one more. *)
Lemma parts_from_cons s : forall c,
  parts_from 0 s <= parts_from 0 (String c s)
  /\ parts_from 0 (String c s) <= S (parts_from 0 s).
Proof.
  induction s as [|c0 s IH]; intros c.
  - rewrite parts_from_here, prefix_blank_line. cbn. lia.
  - rewrite (parts_from_here c), prefix_blank_line.
    destruct ((c =? "010")%char && (c0 =? "010")%char); [|lia].
    rewrite parts_from_skip. specialize (IH c0). lia.
Qed.

Lemma parts_from_prepend p : forall s,
  parts_from 0 s <= parts_from 0 (p ++ s).
Proof.
  induction p as [|c p IH]; intros s; cbn [append]; [lia|].
  specialize (IH s). pose proof (parts_from_cons (p ++ s) c). lia.
Qed.

(** More characters behind: at least as many parts. *)
Lemma parts_from_append t s : forall skip,
  parts_from skip s <= parts_from skip (s ++ t).
Proof.
  induction s as [|c s IH]; intros skip.
  - rewrite parts_from_nil. apply parts_from_positive.
  - cbn [append]. destruct skip as [|k].
    + rewrite !parts_from_here, !prefix_blank_line.
      destruct s as [|b s].
      * cbn [append]. rewrite parts_from_nil.
        destruct t as [|b t].
        -- rewrite parts_from_nil. lia.
        -- destruct ((c =? "010")%char && (b =? "010")%char);
             [lia | apply parts_from_positive].
      * cbn [append].
        destruct ((c =? "010")%char && (b =? "010")%char).
        -- specialize (IH 1). cbn [append] in IH. lia.
        -- apply (IH 0).
    + rewrite !parts_from_skip. apply IH.
Qed.

Lemma list_ascii_of_string_app a b :
  list_ascii_of_string (a ++ b)
  = (list_ascii_of_string a ++ list_ascii_of_string b)%list.
Proof. induction a as [|c a IH]; cbn; [|rewrite IH]; reflexivity. Qed.

Lemma string_of_list_ascii_app a b :
  string_of_list_ascii (a ++ b)%list
  = string_of_list_ascii a ++ string_of_list_ascii b.
Proof. induction a as [|c a IH]; cbn; [|rewrite IH]; reflexivity. Qed.

Lemma reverse_app a b :
  PyStr.reverse (a ++ b) = PyStr.reverse b ++ PyStr.reverse a.
Proof.
  unfold PyStr.reverse.
  rewrite list_ascii_of_string_app, rev_app_distr.
  apply string_of_list_ascii_app.
Qed.

Lemma reverse_involutive s : PyStr.reverse (PyStr.reverse s) = s.
Proof.
  unfold PyStr.reverse.
  rewrite list_ascii_of_string_of_list_ascii, rev_involutive.
  apply string_of_list_ascii_of_string.
Qed.

(** What [drop_space] returns is the end of its argument. *)
Lemma drop_space_suffix two three n : forall s,
  String.length s <= n ->
  exists p, s = p ++ PyStr.drop_space two three s.
Proof.
  induction n as [|n IH]; intros s L.
  - destruct s; [exists EmptyString; reflexivity | cbn in L; lia].
  - destruct s as [|a s1]; [exists EmptyString; reflexivity|].
    cbn [PyStr.drop_space]. cbn [String.length] in L.
    destruct (PyStr.space1 a).
    { destruct (IH s1) as [p Hp]; [lia|].
      exists (String a p). cbn [append]. rewrite <- Hp. reflexivity. }
    destruct s1 as [|b s2]; [exists EmptyString; reflexivity|].
    cbn [String.length] in L.
    destruct (two a b).
    { destruct (IH s2) as [p Hp]; [lia|].
      exists (String a (String b p)). cbn [append]. rewrite <- Hp.
      reflexivity. }
    destruct s2 as [|c s3]; [exists EmptyString; reflexivity|].
    cbn [String.length] in L.
    destruct (three a b c); [|exists EmptyString; reflexivity].
    destruct (IH s3) as [p Hp]; [lia|].
    exists (String a (String b (String c p))). cbn [append].
    rewrite <- Hp. reflexivity.
Qed.

(** [strip] cuts its argument at both ends. *)
Lemma strip_middle s : exists p q, s = p ++ PyStr.strip s ++ q.
Proof.
  unfold PyStr.strip, PyStr.rstrip, PyStr.lstrip.
  destruct (drop_space_suffix PyStr.space2 PyStr.space3 _ s (le_n _))
    as [p Hp].
  set (l := PyStr.drop_space PyStr.space2 PyStr.space3 s) in *.
  destruct (drop_space_suffix (fun a b => PyStr.space2 b a)
              (fun a b c => PyStr.space3 c b a) _ (PyStr.reverse l) (le_n _))
    as [q Hq].
  set (d := PyStr.drop_space _ _ (PyStr.reverse l)) in *.
  exists p, (PyStr.reverse q).
  rewrite <- reverse_app, <- Hq, reverse_involutive. exact Hp.
Qed.

(** The stripped text has no more parts than the text. *)
Lemma strip_parts s :
  List.length (PyStr.split blank_line (PyStr.strip s))
  <= List.length (PyStr.split blank_line s).
Proof.
  unfold PyStr.split.
  destruct (strip_middle s) as [p [q H]]. rewrite H at 2.
  pose proof (parts_from_append q (PyStr.strip s) 0).
  pose proof (parts_from_prepend p (PyStr.strip s ++ q)).
  lia.
Qed.

End Paragraphs.

(** ** The word generator *)

Example generate_word_three :
  generate_word (Return (completion three_paragraphs))
  = ([], Return (Some "Lucid", Some "clear and easy to understand",
                 Some "She gave a lucid explanation.")).
Proof. reflexivity. Qed.

Example generate_word_two :
  generate_word (Return (completion two_paragraphs)) = ([], Return failure).
Proof. reflexivity. Qed.

Example generate_word_empty_word :
  generate_word (Return (completion empty_word_paragraphs))
  = ([], Return (Some "", Some "nothing", Some "none")).
Proof. reflexivity. Qed.

Example generate_word_503 :
  generate_word (Return {| status_code := 503; text := "overloaded";
                           json := Raise (Exn JSONDecodeError "") |})
  = (["overloaded"], Return failure).
Proof. reflexivity. Qed.

(** The content is read before the [try]: a 200 body without it makes
    [generate_word] raise. *)
Example generate_word_no_choices :
  generate_word (Return {| status_code := 200; text := "";
                           json := Return (JObject [("error", JNull)]) |})
  = ([], Raise (Exn KeyError "choices")).
Proof. reflexivity. Qed.

Example generate_word_null_content :
  generate_word (Return {| status_code := 200; text := "";
    json := Return (JObject [("choices",
              JArray [JObject [("message",
                JObject [("content", JNull)])]])]) |})
  = ([], Raise (Exn AttributeError "object has no attribute 'strip'")).
Proof. reflexivity. Qed.

(** [try_parse] returns a full triple or the failure triple. *)
Lemma try_parse_all_or_nothing content :
  try_parse content = failure
  \/ exists w m e, try_parse content = (Some w, Some m, Some e).
Proof.
  unfold try_parse.
  destruct (parse_content content) as [[[w m] e]|x]; [right | left]; eauto.
Qed.

(** With fewer than three parts the [try] raises. *)
Lemma parse_content_short content :
  List.length (PyStr.split blank_line content) < 3 ->
  exists e, parse_content content = Raise e.
Proof.
  unfold parse_content. intros H.
  destruct (PyStr.split blank_line content) as [|p0 [|p1 [|p2 rest]]];
    simpl in *; eauto; lia.
Qed.

(** With three parts or more the triple is built from the first three. *)
Lemma try_parse_first_three content p0 p1 p2 rest :
  PyStr.split blank_line content = p0 :: p1 :: p2 :: rest ->
  try_parse content
  = (Some (PyStr.strip (PyStr.replace "Word: " "" p0)),
     Some (PyStr.strip (PyStr.replace "Meaning: " "" p1)),
     Some (PyStr.strip (PyStr.replace "Example: " "" p2))).
Proof.
  intros H. unfold try_parse, parse_content. rewrite H. reflexivity.
Qed.

(** Where [generate_word] does return the failure triple: a response
    with a status other than 200 makes it print the body and return
    [(None, None, None)]; a 200 response whose message content is a
    [str] with fewer than three parts between blank lines, as it is or
    once stripped, makes it return [(None, None, None)]; and whatever
    the response, a returned triple is [(None, None, None)] or has its
    three fields filled. *)
Theorem generate_word_failure_is_total (r : response) :
  ((status_code r <> 200)%Z ->
     generate_word (Return r) = ([text r], Return failure))
  /\ (forall s,
        status_code r = 200%Z ->
        message_field r = Return (JString s) ->
        List.length (PyStr.split blank_line s) < 3
        \/ List.length (PyStr.split blank_line (PyStr.strip s)) < 3 ->
        generate_word (Return r) = ([], Return failure))
  /\ (forall t,
        snd (generate_word (Return r)) = Return t ->
        t = failure \/ exists w m e, t = (Some w, Some m, Some e)).
Proof.
  repeat split.
  - intros H. unfold generate_word.
    destruct (Z.eqb_spec (status_code r) 200); [contradiction | reflexivity].
  - intros s H200 Hc Hlen. unfold generate_word, message_content.
    rewrite H200, Hc. cbn [Z.eqb Pos.eqb obind method_strip].
    assert (L : List.length (PyStr.split blank_line (PyStr.strip s)) < 3).
    { destruct Hlen as [L | L]; [|exact L].
      pose proof (strip_parts s). lia. }
    destruct (parse_content_short _ L) as [e He].
    unfold try_parse. rewrite He. reflexivity.
  - intros t. unfold generate_word.
    destruct (status_code r =? 200)%Z; simpl.
    + destruct (message_content r) as [content|e]; simpl; [|discriminate].
      intros [= <-]. apply try_parse_all_or_nothing.
    + intros [= <-]. left; reflexivity.
Qed.

Lemma generate_word_failure_is_total_witness :
  generate_word (Return {| status_code := 429; text := "slow down";
                           json := Raise (Exn JSONDecodeError "") |})
  = (["slow down"], Return failure)
  /\ generate_word (Return (completion two_paragraphs))
     = ([], Return failure)
  /\ (lucid = failure \/ exists w m e, lucid = (Some w, Some m, Some e)).
Proof.
  split; [|split].
  - apply (generate_word_failure_is_total
             {| status_code := 429; text := "slow down";
                json := Raise (Exn JSONDecodeError "") |}).
    simpl. discriminate.
  - apply (proj1 (proj2 (generate_word_failure_is_total
                           (completion two_paragraphs)))
             two_paragraphs).
    + reflexivity.
    + reflexivity.
    + left. vm_compute. lia.
  - apply (proj2 (proj2 (generate_word_failure_is_total
                           (completion ("Word: lucid" ++ blank_line
                              ++ "Meaning: clear" ++ blank_line
                              ++ "Example: a lucid explanation"))))).
    reflexivity.
Defined.

(** C4. The claim fails on the code for the 200 responses whose body
    has no [str] content: the content is read on the line before the
    [try], so [generate_word] raises instead of returning
    [(None, None, None)].  So it is for a body that is not JSON, for an
    error object without "choices", for an empty list of choices and
    for a content that is [null]. *)
Theorem generate_word_raises_before_try :
  generate_word
    (Return {| status_code := 200; text := "<html>Bad gateway</html>";
               json := Raise (Exn JSONDecodeError
                                "Expecting value: line 1 column 1 (char 0)")
            |})
  = ([], Raise (Exn JSONDecodeError
                  "Expecting value: line 1 column 1 (char 0)"))
  /\ generate_word
       (Return {| status_code := 200; text := "";
                  json := Return (JObject
                            [("error",
                              JObject [("message",
                                        JString "Rate limit exceeded");
                                       ("code", JNumber "429")])]) |})
     = ([], Raise (Exn KeyError "choices"))
  /\ generate_word
       (Return {| status_code := 200; text := "";
                  json := Return (JObject [("choices", JArray [])]) |})
     = ([], Raise (Exn IndexError "list index out of range"))
  /\ generate_word
       (Return {| status_code := 200; text := "";
                  json := Return (JObject
                            [("choices",
                              JArray [JObject
                                [("message",
                                  JObject [("role", JString "assistant");
                                           ("content", JNull)])]])]) |})
     = ([], Raise (Exn AttributeError "object has no attribute 'strip'")).
Proof. repeat split. Qed.

(** The same for every 200 response: what the reading of the content
    raises leaves [generate_word], and nothing is printed. *)
Lemma generate_word_raises_with_content r e :
  status_code r = 200%Z ->
  message_content r = Raise e ->
  generate_word (Return r) = ([], Raise e).
Proof.
  intros H200 Hc. unfold generate_word. rewrite H200, Hc. reflexivity.
Qed.

(** The third paragraph is missing though the text, with its blank
    line at the end, still splits in three. *)
Example generate_word_trailing_blank_line :
  List.length (PyStr.split blank_line (two_paragraphs ++ blank_line)) = 3
  /\ generate_word (Return (completion (two_paragraphs ++ blank_line)))
     = ([], Return failure).
Proof. split; reflexivity. Qed.


(** ** The unique word resolver *)

Section ResolverSteps.

Variable LOWER : string -> string.
Variable CURRENT_TIMESTAMP : nat -> Z.
Variable word_generator : generator.

Local Abbreviation loop :=
  (get_new_unique_word_loop LOWER CURRENT_TIMESTAMP word_generator).

(** The generator raises: so does the resolver. *)
Lemma loop_step_raise n w printed e :
  word_generator (generated w) = (printed, Raise e) ->
  loop (S n) w = (Raise e, called printed w).
Proof.
  intros G. cbn [get_new_unique_word_loop].
  unfold bind, call_generate_word. rewrite G. reflexivity.
Qed.

(** No word: next attempt, and no statement is executed. *)
Lemma loop_step_no_word n w printed word meaning example :
  word_generator (generated w) = (printed, Return (word, meaning, example)) ->
  PyStr.truthy word = false ->
  loop (S n) w = loop n (called printed w).
Proof.
  intros G T. cbn [get_new_unique_word_loop].
  unfold bind at 1. unfold call_generate_word. rewrite G. cbn iota.
  rewrite T. reflexivity.
Qed.

(** A word the store has: next attempt, after the existence check. *)
Lemma loop_step_duplicate n w printed word meaning example :
  word_generator (generated w) = (printed, Return (word, meaning, example)) ->
  PyStr.truthy word = true ->
  sql_word_exists LOWER word (db w) = true ->
  loop (S n) w = loop n (queried (called printed w)).
Proof.
  intros G T E. cbn [get_new_unique_word_loop].
  unfold bind at 1. unfold call_generate_word. rewrite G. cbn iota.
  rewrite T. cbn [negb]. unfold bind at 1. unfold word_exists, execute.
  cbn [db called]. rewrite E. reflexivity.
Qed.

(** A word the store does not have: it is saved and returned. *)
Lemma loop_step_fresh n w printed word meaning example :
  word_generator (generated w) = (printed, Return (word, meaning, example)) ->
  PyStr.truthy word = true ->
  sql_word_exists LOWER word (db w) = false ->
  loop (S n) w
  = match save_content CURRENT_TIMESTAMP word meaning example
            (queried (called printed w)) with
    | (Return _, w') => (Return (word, meaning, example), w')
    | (Raise e, w') => (Raise e, w')
    end.
Proof.
  intros G T E. cbn [get_new_unique_word_loop].
  unfold bind at 1. unfold call_generate_word. rewrite G. cbn iota.
  rewrite T. cbn [negb]. unfold bind at 1. unfold word_exists, execute.
  cbn [db called]. rewrite E. cbn [negb]. unfold bind, ret.
  fold (queried (called printed w)).
  destruct (save_content _ _ _ _ _) as [[[]|e] w']; reflexivity.
Qed.

(** The existence check is the one of [same_word]. *)
Lemma sql_word_exists_same_word s d :
  sql_word_exists LOWER (Some s) d = existsb (same_word LOWER s) (content d).
Proof. reflexivity. Qed.

Lemma truthy_Some word :
  PyStr.truthy word = true -> exists s, word = Some s /\ s <> EmptyString.
Proof.
  destruct word as [[|c s]|]; simpl; try discriminate.
  intros _. eexists; split; [reflexivity | discriminate].
Qed.

(** A word that passed the existence check does not violate [UNIQUE]. *)
Lemma unseen_word_not_stored s d :
  sql_word_exists LOWER (Some s) d = false ->
  existsb (fun r => (word r =? s)%string) (content d) = false.
Proof.
  simpl. intros H. apply not_true_is_false. intros E.
  apply existsb_exists in E. destruct E as [r [Hin Hr]].
  apply String.eqb_eq in Hr.
  assert (X : existsb (fun r => (LOWER (word r) =? LOWER s)%string)
                (content d) = true).
  { apply existsb_exists. exists r. split; [exact Hin|].
    rewrite Hr. apply String.eqb_refl. }
  congruence.
Qed.

(** After an unsuccessful attempt the remaining attempts decide the run. *)
Lemma resolver_run_next w n w1 r w' :
  db w1 = db w ->
  generated w1 = S (generated w) ->
  sent w1 = sent w ->
  unsuccessful LOWER (db w) (word_generator (generated w)) = true ->
  resolver_run LOWER word_generator w1 n r w' ->
  resolver_run LOWER word_generator w (S n) r w'.
Proof.
  intros Hdb Hgen Hsent Hu Hrun.
  assert (Hall : forall k, k <= n ->
            (forall j, j < k ->
               unsuccessful LOWER (db w1)
                 (word_generator (generated w1 + j)) = true) ->
            forall j, j < S k ->
              unsuccessful LOWER (db w)
                (word_generator (generated w + j)) = true).
  { intros k _ Hk j Hj. destruct j as [|j].
    - rewrite Nat.add_0_r. exact Hu.
    - rewrite <- Hdb.
      replace (generated w + S j) with (generated w1 + j) by lia.
      apply Hk. lia. }
  inversion Hrun; subst.
  - apply run_exhausted; try congruence; try lia.
    apply (Hall n); auto.
  - apply (run_found LOWER word_generator w (S n) (S k) s m e now);
      try congruence; try lia.
    + apply (Hall k); auto; lia.
    + replace (generated w + S k) with (generated w1 + k) by lia. assumption.
  - apply (run_raised LOWER word_generator w (S n) (S k));
      try congruence; try lia.
    + apply (Hall k); auto; lia.
    + rewrite <- Hdb.
      replace (generated w + S k) with (generated w1 + k) by lia. assumption.
Qed.

(** Every run of the loop ends in one of the three ways of
    [resolver_run]. *)
Lemma loop_run n : forall w,
  resolver_run LOWER word_generator w n (fst (loop n w)) (snd (loop n w)).
Proof.
  induction n as [|n IH]; intros w.
  - simpl. apply run_exhausted; auto; intros j Hj; lia.
  - destruct (word_generator (generated w)) as [printed [[[word m] e]|x]] eqn:G.
    + destruct (PyStr.truthy word) eqn:T.
      * destruct (sql_word_exists LOWER word (db w)) eqn:E.
        -- rewrite (loop_step_duplicate n w _ _ _ _ G T E).
           apply (resolver_run_next w n (queried (called printed w)));
             [reflexivity | reflexivity | reflexivity | | apply IH].
           unfold unsuccessful. rewrite G. simpl. rewrite T, E. reflexivity.
        -- rewrite (loop_step_fresh n w _ _ _ _ G T E).
           destruct (truthy_Some word T) as [s [-> Hs]].
           unfold save_content, execute, sql_insert_content.
           cbn [db queried called statements generated sent stdout].
           destruct m as [m|]; [destruct e as [e|]|].
           ++ rewrite (unseen_word_not_stored s (db w) E). cbn [fst snd].
              eapply (run_found LOWER word_generator w (S n) 0); simpl;
                try reflexivity; auto; try lia.
              rewrite Nat.add_0_r, G. reflexivity.
           ++ cbn [fst snd].
              apply (run_raised LOWER word_generator w (S n) 0);
                try (simpl; reflexivity); try (simpl; lia).
              rewrite Nat.add_0_r. unfold unsuccessful.
              rewrite G. cbn [snd]. rewrite T, E. reflexivity.
           ++ cbn [fst snd].
              apply (run_raised LOWER word_generator w (S n) 0);
                try (simpl; reflexivity); try (simpl; lia).
              rewrite Nat.add_0_r. unfold unsuccessful.
              rewrite G. cbn [snd]. rewrite T, E. reflexivity.
      * rewrite (loop_step_no_word n w _ _ _ _ G T).
        apply (resolver_run_next w n (called printed w));
          [reflexivity | reflexivity | reflexivity | | apply IH].
        unfold unsuccessful. rewrite G. simpl. rewrite T. reflexivity.
    + rewrite (loop_step_raise n w _ _ G). cbn [fst snd].
      apply (run_raised LOWER word_generator w (S n) 0);
        try (simpl; reflexivity); try (simpl; lia).
      rewrite Nat.add_0_r. unfold unsuccessful. rewrite G. reflexivity.
Qed.

End ResolverSteps.

Section ResolverClaims.

Variable LOWER : string -> string.
Variable CURRENT_TIMESTAMP : nat -> Z.
Variable word_generator : generator.

Local Abbreviation resolve :=
  (get_new_unique_word LOWER CURRENT_TIMESTAMP word_generator).

(** The three ways of [resolver_run], for a run of the resolver. *)
Lemma get_new_unique_word_cases w :
  (fst (resolve w) = Return failure
   /\ (forall j, j < 5 ->
         unsuccessful LOWER (db w) (word_generator (generated w + j)) = true)
   /\ db (snd (resolve w)) = db w
   /\ generated (snd (resolve w)) = generated w + 5)
  \/ (exists k s m e now,
        fst (resolve w) = Return (Some s, Some m, Some e)
        /\ s <> EmptyString
        /\ k < 5
        /\ snd (word_generator (generated w + k))
           = Return (Some s, Some m, Some e)
        /\ (forall j, j < k ->
              unsuccessful LOWER (db w)
                (word_generator (generated w + j)) = true)
        /\ sql_word_exists LOWER (Some s) (db w) = false
        /\ generated (snd (resolve w)) = generated w + S k
        /\ content (db (snd (resolve w)))
           = (content (db w) ++
              [{| content_id := content_id_seq (db w); word := s;
                  meaning := m; example := e;
                  content_created_at := now |}])%list
        /\ users (db (snd (resolve w))) = users (db w))
  \/ (exists k e,
        fst (resolve w) = Raise e
        /\ k < 5
        /\ unsuccessful LOWER (db w) (word_generator (generated w + k))
           = false
        /\ generated (snd (resolve w)) = generated w + S k
        /\ content (db (snd (resolve w))) = content (db w)
        /\ users (db (snd (resolve w))) = users (db w)
        /\ (forall j, j < k ->
              unsuccessful LOWER (db w)
                (word_generator (generated w + j)) = true)).
Proof.
  unfold get_new_unique_word.
  destruct (loop_run LOWER CURRENT_TIMESTAMP word_generator 5 w)
    as [w' Hu Hdb Hg _ | k s m e now w' Hk Hu Hgen Hs Hx Hc Hus Hg _
       | k e w' Hk Hu Hf Hc Hus Hg _].
  - left. auto.
  - right. left. exists k, s, m, e, now. repeat split; assumption.
  - right. right. exists k, e. repeat split; assumption.
Qed.

(** What the resolver leaves in [content]: the rows it found, or these
    and one row whose word the store did not have, letter case aside. *)
Lemma get_new_unique_word_content w :
  content (db (snd (resolve w))) = content (db w)
  \/ exists row,
       content (db (snd (resolve w))) = (content (db w) ++ [row])%list
       /\ word row <> EmptyString
       /\ existsb (same_word LOWER (word row)) (content (db w)) = false.
Proof.
  destruct (get_new_unique_word_cases w)
    as [(_ & _ & Hdb & _)
       | [(k & s & m & e & now & _ & Hs & _ & _ & _ & Hx & _ & Hc & _)
         | (k & e & _ & _ & _ & _ & Hc & _)]].
  - left. rewrite Hdb. reflexivity.
  - right. eexists. split; [exact Hc|]. split; [exact Hs | exact Hx].
  - left. exact Hc.
Qed.

(** C1. When the store holds the word [x], letter case aside, a run of
    [get_new_unique_word] leaves the entries that hold [x] as they were:
    whatever the generator returns, in whatever letter case, no second
    entry for [x] is stored. *)
Theorem resolver_adds_no_second_entry w x :
  sql_word_exists LOWER (Some x) (db w) = true ->
  entries_of LOWER x (db (snd (resolve w))) = entries_of LOWER x (db w).
Proof.
  intros Hx. unfold entries_of.
  destruct (get_new_unique_word_content w) as [-> | [row [-> [_ Hrow]]]];
    [reflexivity|].
  rewrite filter_app. cbn [filter].
  destruct (same_word LOWER x row) eqn:S; [|apply app_nil_r].
  exfalso. apply String.eqb_eq in S.
  rewrite sql_word_exists_same_word in Hx.
  assert (E : existsb (same_word LOWER (word row)) (content (db w)) = true).
  { apply existsb_exists. apply existsb_exists in Hx.
    destruct Hx as [r [Hin Hr]]. exists r. split; [exact Hin|].
    unfold same_word in *. apply String.eqb_eq in Hr.
    apply String.eqb_eq. congruence. }
  congruence.
Qed.

(** The uniqueness of the words of the store, letter case aside, is kept
    by the resolver. *)
Lemma resolver_keeps_content_unique w :
  content_unique LOWER (db w) ->
  content_unique LOWER (db (snd (resolve w))).
Proof.
  unfold content_unique. intros U.
  destruct (get_new_unique_word_content w) as [-> | [row [-> [_ Hrow]]]];
    [exact U|].
  rewrite map_app. cbn [map].
  apply NoDup_rev in U. rewrite <- (rev_involutive (_ ++ _)%list).
  apply NoDup_rev. rewrite rev_app_distr. cbn [rev app].
  constructor; [|exact U].
  rewrite <- in_rev. intros Hin. apply in_map_iff in Hin.
  destruct Hin as [r [Hr Hin]].
  assert (E : existsb (same_word LOWER (word row)) (content (db w)) = true).
  { apply existsb_exists. exists r. split; [exact Hin|].
    unfold same_word. rewrite Hr. apply String.eqb_refl. }
  congruence.
Qed.

(** The bound on the calls, and the run of five unsuccessful attempts. *)
Lemma resolver_attempts w :
  generated (snd (resolve w)) <= generated w + 5
  /\ ((forall j, j < 5 ->
         unsuccessful LOWER (db w) (word_generator (generated w + j)) = true) ->
      fst (resolve w) = Return failure
      /\ generated (snd (resolve w)) = generated w + 5
      /\ db (snd (resolve w)) = db w).
Proof.
  destruct (get_new_unique_word_cases w)
    as [(Hr & _ & Hdb & Hg)
       | [(k & s & m & e & now & _ & Hs & Hk & Hgen & _ & Hx & Hg & _)
         | (k & e & _ & Hk & Hf & Hg & _)]].
  - split; [lia|]. intros _. auto.
  - split; [lia|]. intros Hall. exfalso.
    specialize (Hall k Hk). unfold unsuccessful in Hall.
    rewrite Hgen in Hall. rewrite Hx in Hall.
    destruct s; [contradiction | discriminate].
  - split; [lia|]. intros Hall. specialize (Hall k Hk). congruence.
Qed.

(** The attempt at which a word was found or an error raised is not
    unsuccessful, and is the first such attempt. *)
Lemma first_successful_attempt w k k' :
  (forall j, j < k ->
     unsuccessful LOWER (db w) (word_generator (generated w + j)) = true) ->
  unsuccessful LOWER (db w) (word_generator (generated w + k)) = false ->
  (forall j, j < k' ->
     unsuccessful LOWER (db w) (word_generator (generated w + j)) = true) ->
  unsuccessful LOWER (db w) (word_generator (generated w + k')) = false ->
  k' = k.
Proof.
  intros Hu Hk Hu' Hk'.
  destruct (Nat.lt_trichotomy k' k) as [L | [E | L]]; [|exact E|].
  - specialize (Hu k' L). congruence.
  - specialize (Hu' k L). congruence.
Qed.

Lemma fresh_attempt_successful (a : list string * outcome word_triple)
    s m e :
  snd a = Return (Some s, Some m, Some e) ->
  s <> EmptyString ->
  forall d, sql_word_exists LOWER (Some s) d = false ->
  unsuccessful LOWER d a = false.
Proof.
  intros H Hs d Hx. unfold unsuccessful. rewrite H, Hx.
  destruct s; [contradiction | reflexivity].
Qed.

(** C3. By its result, a run of [get_new_unique_word] is one of three.
    It returns [(None, None, None)]: then each of the 5 attempts gave
    no word or a word the store has, and the database is as it was.
    It returns another triple: then this is the triple of the first
    attempt that gave a word the store did not have, the attempts
    before it gave no word or stored words, the run ended with that
    call, and [content] is as it was plus exactly one row, made of the
    triple, with [users] as it was.  It raises: then both tables are as
    they were.  So the first attempt with a word the store does not
    have ends the run: the run never goes on to the next call and never
    returns [(None, None, None)], and when it returns, it returns that
    attempt's triple with its row stored. *)
Theorem resolver_persists_one_entry_or_none w :
  match fst (resolve w) with
  | Return t =>
    (t = failure
     /\ (forall j, j < 5 ->
           unsuccessful LOWER (db w) (word_generator (generated w + j))
           = true)
     /\ generated (snd (resolve w)) = generated w + 5
     /\ db (snd (resolve w)) = db w)
    \/ (exists k s m e now,
          t = (Some s, Some m, Some e)
          /\ s <> EmptyString
          /\ k < 5
          /\ snd (word_generator (generated w + k)) = Return t
          /\ (forall j, j < k ->
                unsuccessful LOWER (db w)
                  (word_generator (generated w + j)) = true)
          /\ sql_word_exists LOWER (Some s) (db w) = false
          /\ generated (snd (resolve w)) = generated w + S k
          /\ content (db (snd (resolve w)))
             = (content (db w) ++
                [{| content_id := content_id_seq (db w); word := s;
                    meaning := m; example := e;
                    content_created_at := now |}])%list
          /\ users (db (snd (resolve w))) = users (db w))
  | Raise _ =>
    content (db (snd (resolve w))) = content (db w)
    /\ users (db (snd (resolve w))) = users (db w)
    /\ exists k,
         k < 5
         /\ (forall j, j < k ->
               unsuccessful LOWER (db w)
                 (word_generator (generated w + j)) = true)
         /\ unsuccessful LOWER (db w) (word_generator (generated w + k))
            = false
         /\ generated (snd (resolve w)) = generated w + S k
  end
  /\ (forall k,
        k < 5 ->
        (forall j, j < k ->
           unsuccessful LOWER (db w) (word_generator (generated w + j))
           = true) ->
        unsuccessful LOWER (db w) (word_generator (generated w + k))
        = false ->
        generated (snd (resolve w)) = generated w + S k
        /\ fst (resolve w) <> Return failure
        /\ (forall t,
              fst (resolve w) = Return t ->
              snd (word_generator (generated w + k)) = Return t
              /\ exists s m e now,
                   t = (Some s, Some m, Some e)
                   /\ sql_word_exists LOWER (Some s) (db w) = false
                   /\ content (db (snd (resolve w)))
                      = (content (db w) ++
                         [{| content_id := content_id_seq (db w);
                             word := s; meaning := m; example := e;
                             content_created_at := now |}])%list)).
Proof.
  destruct (get_new_unique_word_cases w)
    as [(Hr & Hall & Hdb & Hg)
       | [(k & s & m & e & now & Hr & Hs & Hk & Hgen & Hu & Hx & Hg & Hc
           & Hus)
         | (k & e & Hr & Hk & Hf & Hg & Hc & Hus & Hu)]]; rewrite Hr.
  - split.
    + left. auto.
    + intros k Hk _ Hf. specialize (Hall k Hk). congruence.
  - pose proof (fresh_attempt_successful _ s m e Hgen Hs (db w) Hx) as Hf.
    split.
    + right. exists k, s, m, e, now. repeat split; assumption.
    + intros k0 Hk0 Hu0 Hf0.
      assert (E : k = k0)
        by (apply (first_successful_attempt w k0 k); assumption).
      subst k0. split; [exact Hg|]. split; [discriminate|].
      intros t [= <-]. split; [exact Hgen|].
      exists s, m, e, now. auto.
  - split.
    + split; [exact Hc|]. split; [exact Hus|].
      exists k. auto.
    + intros k0 Hk0 Hu0 Hf0.
      assert (E : k = k0)
        by (apply (first_successful_attempt w k0 k); assumption).
      subst k0. split; [exact Hg|]. split; [discriminate|].
      intros t [=].
Qed.

Lemma empty_as_failure_empty k printed m e :
  word_generator k = (printed, Return (Some EmptyString, m, e)) ->
  empty_as_failure word_generator k = (printed, Return failure).
Proof. unfold empty_as_failure. intros ->. reflexivity. Qed.

Lemma empty_as_failure_other k printed r :
  word_generator k = (printed, r) ->
  (forall m e, r <> Return (Some EmptyString, m, e)) ->
  empty_as_failure word_generator k = (printed, r).
Proof.
  unfold empty_as_failure. intros -> H.
  destruct r as [[[[[|c s]|] m] e]|x]; try reflexivity.
  exfalso. apply (H m e). reflexivity.
Qed.

(** Attempt by attempt, an empty word and the failure triple lead the
    loop through the same worlds. *)
Lemma loop_empty_as_failure n : forall w,
  get_new_unique_word_loop LOWER CURRENT_TIMESTAMP word_generator n w
  = get_new_unique_word_loop LOWER CURRENT_TIMESTAMP
      (empty_as_failure word_generator) n w.
Proof.
  induction n as [|n IH]; intros w; [reflexivity|].
  destruct (word_generator (generated w)) as [printed r] eqn:G.
  destruct r as [[[word m] e]|x].
  - destruct word as [[|c s]|].
    + rewrite (loop_step_no_word _ _ _ n w _ _ _ _ G eq_refl).
      rewrite (loop_step_no_word _ _ _ n w _ _ _ _
                 (empty_as_failure_empty _ _ _ _ G) eq_refl).
      apply IH.
    + assert (G' : empty_as_failure word_generator (generated w)
                   = (printed, Return (Some (String c s), m, e)))
        by (apply empty_as_failure_other; [exact G | discriminate]).
      destruct (sql_word_exists LOWER (Some (String c s)) (db w)) eqn:E.
      * rewrite (loop_step_duplicate _ _ _ n w _ _ _ _ G eq_refl E).
        rewrite (loop_step_duplicate _ _ _ n w _ _ _ _ G' eq_refl E).
        apply IH.
      * rewrite (loop_step_fresh _ _ _ n w _ _ _ _ G eq_refl E).
        rewrite (loop_step_fresh _ _ _ n w _ _ _ _ G' eq_refl E).
        reflexivity.
    + assert (G' : empty_as_failure word_generator (generated w)
                   = (printed, Return (None, m, e)))
        by (apply empty_as_failure_other; [exact G | discriminate]).
      rewrite (loop_step_no_word _ _ _ n w _ _ _ _ G eq_refl).
      rewrite (loop_step_no_word _ _ _ n w _ _ _ _ G' eq_refl).
      apply IH.
  - assert (G' : empty_as_failure word_generator (generated w)
                 = (printed, Raise x))
      by (apply empty_as_failure_other; [exact G | discriminate]).
    rewrite (loop_step_raise _ _ _ n w _ _ G).
    rewrite (loop_step_raise _ _ _ n w _ _ G').
    reflexivity.
Qed.

(** C8. An attempt whose word is the empty string goes straight to the
    next attempt, in a world where only the call of the generator is
    counted: no statement was executed and the database is untouched.
    The whole run is the run in which every such attempt returned
    [(None, None, None)] instead, and a row that the run adds to
    [content] never has the empty word. *)
Theorem resolver_skips_empty_word w :
  (forall n printed m e,
     word_generator (generated w)
     = (printed, Return (Some EmptyString, m, e)) ->
     get_new_unique_word_loop LOWER CURRENT_TIMESTAMP word_generator (S n) w
     = get_new_unique_word_loop LOWER CURRENT_TIMESTAMP word_generator n
         (called printed w))
  /\ resolve w
     = get_new_unique_word LOWER CURRENT_TIMESTAMP
         (empty_as_failure word_generator) w
  /\ (forall row,
        In row (content (db (snd (resolve w)))) ->
        In row (content (db w)) \/ word row <> EmptyString).
Proof.
  split; [|split].
  - intros n printed m e G.
    exact (loop_step_no_word _ _ _ n w _ _ _ _ G eq_refl).
  - apply loop_empty_as_failure.
  - intros row Hin.
    destruct (get_new_unique_word_content w) as [H | [new [H [Hne _]]]];
      rewrite H in Hin.
    + left. exact Hin.
    + apply in_app_or in Hin. destruct Hin as [Hin | [<- | []]]; auto.
Qed.

End ResolverClaims.

(** The scenario of the two runs: a store without "lucid", then a
    generator that keeps returning it. *)
Example resolver_first_lucid :
  get_new_unique_word lower_ascii noon (stub lucid) fresh_world
  = (Return lucid,
     {| db := {| users := []; users_id_seq := 1;
                 content := [{| content_id := 1; word := "lucid";
                                meaning := "clear";
                                example := "a lucid explanation";
                                content_created_at := 43200 |}];
                 content_id_seq := 2 |};
        statements := 2; generated := 1; sent := []; stdout := [] |}).
Proof. reflexivity. Qed.

Example resolver_second_lucid :
  get_new_unique_word lower_ascii noon (stub lucid) lucid_world
  = (Return failure,
     {| db := lucid_db; statements := 7; generated := 6; sent := [];
        stdout := [] |}).
Proof. reflexivity. Qed.

(** A generated word in another letter case is a duplicate as well. *)
Example resolver_upper_lucid :
  fst (get_new_unique_word lower_ascii noon
         (stub (Some "LUCID", Some "clear", Some "LUCID!")) lucid_world)
  = Return failure.
Proof. reflexivity. Qed.

(** With the generator of the script: the service answers "Lucid" in
    three paragraphs; the word is stored in a new database and is a
    duplicate where "lucid" is stored. *)
Example resolver_live_fresh :
  let run :=
    get_new_unique_word lower_ascii noon
      (live_generator (fun _ => Return (completion three_paragraphs)))
      fresh_world in
  fst run = Return (Some "Lucid", Some "clear and easy to understand",
                    Some "She gave a lucid explanation.")
  /\ map word (content (db (snd run))) = ["Lucid"]
  /\ generated (snd run) = 1.
Proof. repeat split. Qed.

Example resolver_live_duplicate :
  let run :=
    get_new_unique_word lower_ascii noon
      (live_generator (fun _ => Return (completion three_paragraphs)))
      lucid_world in
  fst run = Return failure
  /\ map word (content (db (snd run))) = ["lucid"]
  /\ generated (snd run) = 6.
Proof. repeat split. Qed.

(** A stub that leaves the meaning out makes [save_content] raise. *)
Example resolver_partial_stub :
  fst (get_new_unique_word lower_ascii noon
         (stub (Some "terse", None, None)) lucid_world)
  = Raise (Exn NotNullViolation
             "null value in column violates not-null constraint").
Proof. reflexivity. Qed.

(** C2. A run of [get_new_unique_word] calls the generator at most 5
    times.  When each of the 5 attempts returns no word or a word the
    store has, the generator is called exactly 5 times, the result is
    [(None, None, None)] and the database is as before.  So it is with
    a stub that returns a word of the store at every call. *)
Theorem resolver_makes_at_most_five_calls
    (LOWER : string -> string) (CURRENT_TIMESTAMP : nat -> Z)
    (word_generator : generator) (w : World) :
  generated (snd (get_new_unique_word LOWER CURRENT_TIMESTAMP
                    word_generator w))
  <= generated w + 5
  /\ ((forall j, j < 5 ->
         unsuccessful LOWER (db w) (word_generator (generated w + j)) = true) ->
      fst (get_new_unique_word LOWER CURRENT_TIMESTAMP word_generator w)
      = Return failure
      /\ generated (snd (get_new_unique_word LOWER CURRENT_TIMESTAMP
                           word_generator w))
         = generated w + 5
      /\ db (snd (get_new_unique_word LOWER CURRENT_TIMESTAMP
                    word_generator w))
         = db w)
  /\ (forall s m e,
        sql_word_exists LOWER (Some s) (db w) = true ->
        fst (get_new_unique_word LOWER CURRENT_TIMESTAMP
               (stub (Some s, m, e)) w)
        = Return failure
        /\ generated (snd (get_new_unique_word LOWER CURRENT_TIMESTAMP
                             (stub (Some s, m, e)) w))
           = generated w + 5).
Proof.
  split; [|split].
  - apply resolver_attempts.
  - apply resolver_attempts.
  - intros s m e Hs.
    destruct (proj2 (resolver_attempts LOWER CURRENT_TIMESTAMP
                       (stub (Some s, m, e)) w)) as (Hr & Hg & _);
      [|split; assumption].
    intros j _. unfold unsuccessful, stub. cbn [snd].
    rewrite Hs. apply orb_true_r.
Qed.

Lemma resolver_adds_no_second_entry_witness :
  sql_word_exists lower_ascii (Some "Lucid") (db lucid_world) = true
  /\ entries_of lower_ascii "Lucid"
       (db (snd (get_new_unique_word lower_ascii noon
                   (stub (Some "LUCID", Some "clear", Some "LUCID!"))
                   lucid_world)))
     = entries_of lower_ascii "Lucid" (db lucid_world).
Proof.
  split; [reflexivity|].
  apply (resolver_adds_no_second_entry lower_ascii noon
           (stub (Some "LUCID", Some "clear", Some "LUCID!"))
           lucid_world "Lucid").
  reflexivity.
Defined.

Lemma resolver_persists_one_entry_or_none_witness :
  snd (stub lucid (generated fresh_world + 0)) = Return lucid
  /\ exists s m e now,
       lucid = (Some s, Some m, Some e)
       /\ sql_word_exists lower_ascii (Some s) (db fresh_world) = false
       /\ content (db (snd (get_new_unique_word lower_ascii noon
                              (stub lucid) fresh_world)))
          = (content (db fresh_world) ++
             [{| content_id := content_id_seq (db fresh_world);
                 word := s; meaning := m; example := e;
                 content_created_at := now |}])%list.
Proof.
  refine (proj2 (proj2 (proj2 (resolver_persists_one_entry_or_none
                                 lower_ascii noon (stub lucid) fresh_world)
                          0 _ _ _))
            lucid _).
  - lia.
  - intros j Hj. lia.
  - reflexivity.
  - reflexivity.
Defined.

Lemma resolver_makes_at_most_five_calls_witness :
  (fst (get_new_unique_word lower_ascii noon (stub lucid) lucid_world)
   = Return failure
   /\ generated (snd (get_new_unique_word lower_ascii noon (stub lucid)
                        lucid_world))
      = generated lucid_world + 5
   /\ db (snd (get_new_unique_word lower_ascii noon (stub lucid)
                 lucid_world))
      = db lucid_world)
  /\ (fst (get_new_unique_word lower_ascii noon
             (stub (Some "Lucid", None, None)) lucid_world)
      = Return failure
      /\ generated (snd (get_new_unique_word lower_ascii noon
                           (stub (Some "Lucid", None, None)) lucid_world))
         = generated lucid_world + 5).
Proof.
  split.
  - apply (proj1 (proj2 (resolver_makes_at_most_five_calls lower_ascii noon
                           (stub lucid) lucid_world))).
    intros j _. reflexivity.
  - apply (proj2 (proj2 (resolver_makes_at_most_five_calls lower_ascii noon
                           (stub lucid) lucid_world))
             "Lucid" None None).
    reflexivity.
Defined.

Lemma resolver_skips_empty_word_witness :
  get_new_unique_word_loop lower_ascii noon
    (stub (Some "", Some "nothing", Some "none")) 5 fresh_world
  = get_new_unique_word_loop lower_ascii noon
      (stub (Some "", Some "nothing", Some "none")) 4 (called [] fresh_world)
  /\ (In {| content_id := 1; word := "lucid"; meaning := "clear";
            example := "a lucid explanation"; content_created_at := 43200 |}
         (content (db fresh_world))
      \/ "lucid" <> "").
Proof.
  split.
  - apply (proj1 (resolver_skips_empty_word lower_ascii noon
                    (stub (Some "", Some "nothing", Some "none"))
                    fresh_world)
             4 [] (Some "nothing") (Some "none")).
    reflexivity.
  - apply (proj2 (proj2 (resolver_skips_empty_word lower_ascii noon
                           (stub lucid) fresh_world))
             {| content_id := 1; word := "lucid"; meaning := "clear";
                example := "a lucid explanation";
                content_created_at := 43200 |}).
    left. reflexivity.
Defined.

(** An empty word at the first two attempts, then "lucid": two calls
    without a statement, then the check and the insertion. *)
Example resolver_empty_then_lucid :
  get_new_unique_word lower_ascii noon
    (fun k => if k <? 2 then ([], Return (Some "", Some "m", Some "e"))
              else ([], Return lucid))
    fresh_world
  = (Return lucid,
     {| db := {| users := []; users_id_seq := 1;
                 content := [{| content_id := 1; word := "lucid";
                                meaning := "clear";
                                example := "a lucid explanation";
                                content_created_at := 43200 |}];
                 content_id_seq := 2 |};
        statements := 2; generated := 3; sent := []; stdout := [] |}).
Proof. reflexivity. Qed.

(** ** The content store *)

Section ContentStore.

Variable CURRENT_TIMESTAMP : nat -> Z.

(** C5, as the code has it.  When the store has an entry whose word
    is the very same text, [save_content] raises the uniqueness
    violation and adds nothing; and it raises that error for no other
    word: a word that is in the store in another letter case only is
    not rejected as a duplicate. *)
Theorem save_content_unique_on_exact_text w s m e :
  (existsb (fun r => (word r =? s)%string) (content (db w)) = true ->
   (exists x,
      fst (save_content CURRENT_TIMESTAMP (Some s) (Some m) (Some e) w)
      = Raise x /\ exn_cls x = UniqueViolation)
   /\ content (db (snd (save_content CURRENT_TIMESTAMP
                          (Some s) (Some m) (Some e) w)))
      = content (db w))
  /\ (forall x,
        fst (save_content CURRENT_TIMESTAMP (Some s) (Some m) (Some e) w)
        = Raise x ->
        exn_cls x = UniqueViolation ->
        existsb (fun r => (word r =? s)%string) (content (db w)) = true).
Proof.
  unfold save_content, execute, sql_insert_content. split.
  - intros H. rewrite H. cbn [fst snd db content].
    split; [|reflexivity]. eexists. split; reflexivity.
  - intros x.
    destruct (existsb (fun r => (word r =? s)%string) (content (db w)));
      [reflexivity|].
    cbn [fst]. discriminate.
Qed.

End ContentStore.

Lemma save_content_unique_on_exact_text_witness :
  ((exists x,
      fst (save_content noon (Some "lucid") (Some "bright") (Some "so lucid")
             lucid_world) = Raise x
      /\ exn_cls x = UniqueViolation)
   /\ content (db (snd (save_content noon (Some "lucid") (Some "bright")
                          (Some "so lucid") lucid_world)))
      = content (db lucid_world))
  /\ existsb (fun r => (word r =? "lucid")%string) (content (db lucid_world))
     = true.
Proof.
  split.
  - apply (proj1 (save_content_unique_on_exact_text noon lucid_world
                    "lucid" "bright" "so lucid")).
    reflexivity.
  - apply (proj2 (save_content_unique_on_exact_text noon lucid_world
                    "lucid" "bright" "so lucid")
             (Exn UniqueViolation
                "duplicate key value violates unique constraint")).
    + reflexivity.
    + reflexivity.
Defined.

(** C5 as stated fails: the store holds "lucid", so "Lucid" is present
    letter case aside, yet [save_content] with "Lucid" returns and the
    store then has two entries for that word. *)
Lemma save_content_accepts_other_casing :
  sql_word_exists lower_ascii (Some "Lucid") (db lucid_world) = true
  /\ fst (save_content noon (Some "Lucid") (Some "clear")
            (Some "Lucid, she said.") lucid_world) = Return tt
  /\ map word
       (entries_of lower_ascii "Lucid"
          (db (snd (save_content noon (Some "Lucid") (Some "clear")
                      (Some "Lucid, she said.") lucid_world))))
     = ["lucid"; "Lucid"].
Proof. repeat split. Qed.

(** ** The broadcaster *)

Section Broadcaster.

Variable bot_send_message : nat -> Z -> string -> outcome unit.

(** One turn of the loop when the delivery returns. *)
Lemma broadcast_step_delivered message c rest w :
  bot_send_message (List.length (sent w)) c message = Return tt ->
  broadcast bot_send_message message (c :: rest) w
  = broadcast bot_send_message message rest
      {| db := db w; statements := statements w; generated := generated w;
         sent := (sent w ++ [(c, message)])%list; stdout := stdout w |}.
Proof.
  intros H. unfold broadcast. cbn [for_each]. unfold bind at 1.
  unfold try_except_Exception, send_message. rewrite H. reflexivity.
Qed.

(** One turn of the loop when the delivery raises an [Exception]. *)
Lemma broadcast_step_failed message c rest w e :
  bot_send_message (List.length (sent w)) c message = Raise e ->
  is_Exception e = true ->
  broadcast bot_send_message message (c :: rest) w
  = broadcast bot_send_message message rest
      {| db := db w; statements := statements w; generated := generated w;
         sent := (sent w ++ [(c, message)])%list;
         stdout := (stdout w ++
                    [("Failed to send to " ++ PyStr.str_of_int c ++ ": "
                      ++ exn_msg e)%string])%list |}.
Proof.
  intros H E. unfold broadcast. cbn [for_each]. unfold bind at 1.
  unfold try_except_Exception, send_message. rewrite H, E. reflexivity.
Qed.

(** C6. When the deliveries that fail raise an [Exception], the loop of
    [send_daily_word] returns normally, has attempted the delivery to
    every chat of the list, once each and in order, has printed one line
    per failed delivery, and has left the database alone. *)
Theorem broadcast_attempts_every_chat message chats : forall w,
  only_delivery_errors bot_send_message message chats ->
  fst (broadcast bot_send_message message chats w) = Return tt
  /\ sent (snd (broadcast bot_send_message message chats w))
     = (sent w ++ map (fun c => (c, message)) chats)%list
  /\ stdout (snd (broadcast bot_send_message message chats w))
     = (stdout w ++
        failure_log bot_send_message message (List.length (sent w)) chats)%list
  /\ db (snd (broadcast bot_send_message message chats w)) = db w.
Proof.
  induction chats as [|c rest IH]; intros w Hex.
  - cbn. rewrite !app_nil_r. auto.
  - assert (Hrest : only_delivery_errors bot_send_message message rest).
    { intros k c' e Hin. apply (Hex k c' e). right. exact Hin. }
    cbn [failure_log map].
    destruct (bot_send_message (List.length (sent w)) c message)
      as [[]|e] eqn:S.
    + rewrite (broadcast_step_delivered message c rest w S).
      match goal with
      | |- context [broadcast _ _ rest ?w1] =>
        destruct (IH w1 Hrest) as (Hr & Hs & Ho & Hd)
      end.
      rewrite Hr, Hs, Ho, Hd. cbn [sent stdout db].
      rewrite length_app, Nat.add_1_r, <- app_assoc. auto.
    + assert (E : is_Exception e = true)
        by (apply (Hex (List.length (sent w)) c e);
            [left; reflexivity | exact S]).
      rewrite (broadcast_step_failed message c rest w e S E).
      match goal with
      | |- context [broadcast _ _ rest ?w1] =>
        destruct (IH w1 Hrest) as (Hr & Hs & Ho & Hd)
      end.
      rewrite Hr, Hs, Ho, Hd. cbn [sent stdout db].
      rewrite length_app, Nat.add_1_r, <- !app_assoc. auto.
Qed.

End Broadcaster.

Lemma broadcast_attempts_every_chat_witness :
  fst (broadcast blocked_2 "word" [1; 2; 3]%Z fresh_world) = Return tt
  /\ sent (snd (broadcast blocked_2 "word" [1; 2; 3]%Z fresh_world))
     = (sent fresh_world
        ++ map (fun c => (c, "word")) [1; 2; 3]%Z)%list
  /\ stdout (snd (broadcast blocked_2 "word" [1; 2; 3]%Z fresh_world))
     = (stdout fresh_world
        ++ failure_log blocked_2 "word" (List.length (sent fresh_world))
             [1; 2; 3]%Z)%list
  /\ db (snd (broadcast blocked_2 "word" [1; 2; 3]%Z fresh_world))
     = db fresh_world.
Proof.
  apply (broadcast_attempts_every_chat blocked_2 "word" [1; 2; 3]%Z
           fresh_world).
  intros k c e _. unfold blocked_2.
  destruct (c =? 2)%Z; [|discriminate].
  intros [= <-]. reflexivity.
Defined.

(** [send_daily_word] after a resolver run that returned a word: the
    loop runs over the chats that [get_subscribed_users] lists. *)
Lemma send_daily_word_broadcasts LOWER CURRENT_TIMESTAMP word_generator
    bot_send_message w word meaning example w1 :
  get_new_unique_word LOWER CURRENT_TIMESTAMP word_generator w
  = (Return (word, meaning, example), w1) ->
  PyStr.truthy word = true ->
  send_daily_word LOWER CURRENT_TIMESTAMP word_generator bot_send_message w
  = broadcast bot_send_message (daily_message word meaning example)
      (sql_subscribed (db w1)) (queried w1).
Proof.
  intros R T. unfold send_daily_word. unfold bind at 1. rewrite R.
  cbn iota. rewrite T. reflexivity.
Qed.

(** With the chat 2 blocking the bot, the chats 1, 2 and 3 are all
    attempted and one line is printed. *)
Example broadcast_blocked_2 :
  broadcast blocked_2 "word" [1; 2; 3]%Z fresh_world
  = (Return tt,
     {| db := empty_db; statements := 0; generated := 0;
        sent := [(1, "word"); (2, "word"); (3, "word")]%Z;
        stdout :=
          ["Failed to send to 2: Forbidden: bot was blocked by the user"] |}).
Proof. reflexivity. Qed.

(** A cancellation is not an [Exception]: it leaves the loop. *)
Example broadcast_cancelled :
  broadcast (fun _ _ _ => Raise (Exn CancelledError "")) "word" [1; 2]%Z
    fresh_world
  = (Raise (Exn CancelledError ""),
     {| db := empty_db; statements := 0; generated := 0;
        sent := [(1, "word")]%Z; stdout := [] |}).
Proof. reflexivity. Qed.

(** [send_daily_word] with a fresh word: the message goes to the
    subscribed chats. *)
Example send_daily_word_to_subscribers :
  let w :=
    snd (handle_all noon [Subscribe 1; Subscribe 2; Unsubscribe 1]%Z
           fresh_world) in
  sent (snd (send_daily_word lower_ascii noon (stub lucid) blocked_2 w))
  = [(2%Z, daily_message (Some "lucid") (Some "clear")
             (Some "a lucid explanation"))].
Proof. reflexivity. Qed.

(** [send_daily_word] without a word: nothing is sent. *)
Example send_daily_word_without_word :
  let w :=
    snd (handle_all noon [Subscribe 1; Subscribe 2]%Z lucid_world) in
  send_daily_word lower_ascii noon (stub lucid) blocked_2 w
  = (Return tt,
     {| db := db w; statements := 9; generated := 6; sent := [];
        stdout := ["Failed to generate unique word."] |}).
Proof. reflexivity. Qed.

(** ** The subscriber registry *)

Lemma update_subscribed_chat_ids b c rows :
  map chat_id (update_subscribed b c rows) = map chat_id rows.
Proof.
  unfold update_subscribed. rewrite map_map. apply map_ext.
  intros r. destruct (chat_id r =? c)%Z; reflexivity.
Qed.

(** An update for the chat [c'] leaves the rows of another chat. *)
Lemma update_subscribed_other b c c' rows :
  c' <> c ->
  filter (fun r => (chat_id r =? c)%Z) (update_subscribed b c' rows)
  = filter (fun r => (chat_id r =? c)%Z) rows.
Proof.
  intros Hne. induction rows as [|r rows IH]; [reflexivity|].
  cbn [update_subscribed map filter]. fold (update_subscribed b c' rows).
  rewrite IH.
  destruct (Z.eqb_spec (chat_id r) c') as [E|E]; [|reflexivity].
  cbn [set_subscribed chat_id].
  destruct (Z.eqb_spec (chat_id r) c); [congruence | reflexivity].
Qed.

(** An update for the chat [c] sets the flag of the rows of [c]. *)
Lemma update_subscribed_same b c rows :
  filter (fun r => (chat_id r =? c)%Z) (update_subscribed b c rows)
  = map (set_subscribed b) (filter (fun r => (chat_id r =? c)%Z) rows).
Proof.
  induction rows as [|r rows IH]; [reflexivity|].
  cbn [update_subscribed map filter]. fold (update_subscribed b c rows).
  destruct (Z.eqb_spec (chat_id r) c) as [E|E].
  - cbn [set_subscribed chat_id]. rewrite (proj2 (Z.eqb_eq _ _) E).
    cbn [map]. rewrite IH. reflexivity.
  - rewrite (proj2 (Z.eqb_neq _ _) E). exact IH.
Qed.

(** Row by row, an update changes the flag at most. *)
Lemma update_subscribed_rows b c rows :
  Forall2
    (fun r r' =>
       same_but_flag r r'
       /\ subscribed r' = if (chat_id r =? c)%Z then b else subscribed r)
    rows (update_subscribed b c rows).
Proof.
  induction rows as [|r rows IH]; constructor; [|exact IH].
  unfold same_but_flag.
  destruct (chat_id r =? c)%Z; cbn; auto.
Qed.

(** Under the [UNIQUE] constraint a chat has at most one row. *)
Lemma unique_records c rows :
  NoDup (map chat_id rows) ->
  List.length (filter (fun r => (chat_id r =? c)%Z) rows) <= 1.
Proof.
  induction rows as [|r rows IH]; cbn [map filter]; intros U; [cbn; lia|].
  inversion U as [|x l Hnotin U']; subst.
  destruct (Z.eqb_spec (chat_id r) c) as [E|E]; [|auto].
  cbn [List.length].
  destruct (filter (fun r => (chat_id r =? c)%Z) rows) as [|r' l] eqn:F;
    [cbn; lia|].
  exfalso. apply Hnotin.
  assert (Hin : In r' (filter (fun r => (chat_id r =? c)%Z) rows))
    by (rewrite F; left; reflexivity).
  apply filter_In in Hin. destruct Hin as [Hin Hc].
  apply Z.eqb_eq in Hc. rewrite E, <- Hc. apply in_map. exact Hin.
Qed.

Lemma no_records c rows :
  existsb (fun r => (chat_id r =? c)%Z) rows = false ->
  filter (fun r => (chat_id r =? c)%Z) rows = [].
Proof.
  induction rows as [|r rows IH]; cbn [existsb filter]; [reflexivity|].
  destruct (chat_id r =? c)%Z; [discriminate | exact IH].
Qed.

Lemma some_records c rows :
  existsb (fun r => (chat_id r =? c)%Z) rows = true ->
  filter (fun r => (chat_id r =? c)%Z) rows <> [].
Proof.
  induction rows as [|r rows IH]; cbn [existsb filter]; [discriminate|].
  destruct (chat_id r =? c)%Z; [discriminate | exact IH].
Qed.

Section Registry.

Variable CURRENT_TIMESTAMP : nat -> Z.

Local Abbreviation subscribe := (subscribe_user CURRENT_TIMESTAMP).
Local Abbreviation unsubscribe := (unsubscribe_user CURRENT_TIMESTAMP).
Local Abbreviation handle := (handle_all CURRENT_TIMESTAMP).

Lemma handle_all_cons op ops w :
  handle (op :: ops) w
  = handle ops
      (snd (match op with
            | Subscribe c => subscribe c w
            | Unsubscribe c => unsubscribe c w
            end)).
Proof. destruct op; reflexivity. Qed.

Lemma handle_all_app ops1 : forall ops2 w,
  handle (ops1 ++ ops2)%list w = handle ops2 (snd (handle ops1 w)).
Proof.
  induction ops1 as [|op ops1 IH]; intros ops2 w; [reflexivity|].
  rewrite <- app_comm_cons, !handle_all_cons. apply IH.
Qed.

(** The registry commands do not raise. *)
Lemma handle_all_returns ops : forall w, fst (handle ops w) = Return tt.
Proof.
  induction ops as [|op ops IH]; intros w; [reflexivity|].
  rewrite handle_all_cons. apply IH.
Qed.

(** Both commands keep the [UNIQUE] constraint of [users]. *)
Lemma subscribe_user_keeps_unique c w :
  users_unique (db w) -> users_unique (db (snd (subscribe c w))).
Proof.
  unfold users_unique. cbn. intros U.
  destruct (existsb (fun r => (chat_id r =? c)%Z) (users (db w))) eqn:X.
  - rewrite update_subscribed_chat_ids. exact U.
  - rewrite map_app. cbn [map chat_id].
    apply NoDup_rev in U. rewrite <- (rev_involutive (_ ++ _)%list).
    apply NoDup_rev. rewrite rev_app_distr. cbn [rev app].
    constructor; [|exact U].
    rewrite <- in_rev. intros Hin. apply in_map_iff in Hin.
    destruct Hin as [r [Hr Hin]].
    assert (E : existsb (fun r => (chat_id r =? c)%Z) (users (db w)) = true)
      by (apply existsb_exists; exists r; split;
          [exact Hin | apply Z.eqb_eq; exact Hr]).
    congruence.
Qed.

Lemma unsubscribe_user_keeps_unique c w :
  users_unique (db w) -> users_unique (db (snd (unsubscribe c w))).
Proof.
  unfold users_unique. cbn. rewrite update_subscribed_chat_ids. auto.
Qed.

Lemma handle_all_keeps_unique ops : forall w,
  users_unique (db w) -> users_unique (db (snd (handle ops w))).
Proof.
  induction ops as [|op ops IH]; intros w U; [exact U|].
  rewrite handle_all_cons. apply IH. destruct op.
  - apply subscribe_user_keeps_unique. exact U.
  - apply unsubscribe_user_keeps_unique. exact U.
Qed.

(** After [subscribe_user c] the chat [c] has one row, flagged. *)
Lemma subscribe_user_one_record c w :
  users_unique (db w) ->
  exists r, records_of c (db (snd (subscribe c w))) = [r]
            /\ subscribed r = true.
Proof.
  unfold users_unique, records_of. cbn. intros U.
  destruct (existsb (fun r => (chat_id r =? c)%Z) (users (db w))) eqn:X.
  - rewrite update_subscribed_same.
    pose proof (unique_records c _ U) as L.
    pose proof (some_records c _ X) as N.
    destruct (filter (fun r => (chat_id r =? c)%Z) (users (db w)))
      as [|r [|r' l]]; [contradiction | | cbn in L; lia].
    eexists. split; reflexivity.
  - rewrite filter_app, (no_records c _ X). cbn [filter chat_id].
    rewrite Z.eqb_refl. eexists. split; reflexivity.
Qed.

(** Commands of other chats leave the rows of the chat [c]. *)
Lemma handle_all_other_chats c ops : forall w,
  Forall (fun op => command_chat op <> c) ops ->
  records_of c (db (snd (handle ops w))) = records_of c (db w).
Proof.
  induction ops as [|op ops IH]; intros w F; [reflexivity|].
  inversion F as [|x l Hop F']; subst.
  rewrite handle_all_cons, (IH _ F').
  unfold records_of. destruct op as [c'|c']; cbn in Hop |- *.
  - destruct (existsb (fun r => (chat_id r =? c')%Z) (users (db w))).
    + apply update_subscribed_other. exact Hop.
    + rewrite filter_app. cbn [filter chat_id].
      rewrite (proj2 (Z.eqb_neq _ _) Hop). apply app_nil_r.
  - apply update_subscribed_other. exact Hop.
Qed.

(** A chat whose rows are all unflagged is not listed. *)
Lemma not_listed c d :
  Forall (fun r => subscribed r = false) (records_of c d) ->
  ~ In c (sql_subscribed d).
Proof.
  unfold sql_subscribed, records_of. intros F Hin.
  apply in_map_iff in Hin. destruct Hin as [r [Hc Hin]].
  apply filter_In in Hin. destruct Hin as [Hin Hs].
  rewrite Forall_forall in F.
  assert (Hf : subscribed r = false).
  { apply F. apply filter_In. split; [exact Hin|]. apply Z.eqb_eq. exact Hc. }
  congruence.
Qed.

(** C7. When [users] has at most one row per chat, [subscribe_user c]
    followed by [unsubscribe_user c], with commands of other chats before,
    between and after as may be, leaves exactly one row for [c], with
    [subscribed] false, and [get_subscribed_users] does not list [c]. *)
Theorem subscribe_then_unsubscribe c between after w :
  users_unique (db w) ->
  Forall (fun op => command_chat op <> c) between ->
  Forall (fun op => command_chat op <> c) after ->
  let w' :=
    snd (handle (Subscribe c :: between ++ Unsubscribe c :: after)%list w) in
  (exists r, records_of c (db w') = [r] /\ subscribed r = false)
  /\ (exists listed,
        fst (get_subscribed_users CURRENT_TIMESTAMP w') = Return listed
        /\ ~ In c listed).
Proof.
  intros U Fb Fa w'.
  assert (R : exists r, records_of c (db w') = [r] /\ subscribed r = false).
  { subst w'. rewrite handle_all_cons, handle_all_app, handle_all_cons.
    rewrite (handle_all_other_chats c after _ Fa).
    destruct (subscribe_user_one_record c w U) as [r [Hr _]].
    exists (set_subscribed false r). split; [|reflexivity].
    unfold records_of at 1. cbn [unsubscribe_user execute sql_unsubscribe
                                  snd db users].
    rewrite update_subscribed_same.
    fold (records_of c (db (snd (handle between (snd (subscribe c w)))))).
    rewrite (handle_all_other_chats c between _ Fb), Hr. reflexivity. }
  split; [exact R|].
  exists (sql_subscribed (db w')). split; [reflexivity|].
  apply not_listed. destruct R as [r [-> Hr]]. constructor; auto.
Qed.

(** C10. For a chat that has a row, [subscribe_user] returns, leaves as
    many rows as there were, and row by row keeps [id], [chat_id] and
    [created_at]; [subscribed] becomes true in the rows of the chat and
    stays as it was in the others; [content] is untouched. *)
Theorem subscribe_again_sets_only_the_flag c w :
  In c (map chat_id (users (db w))) ->
  fst (subscribe c w) = Return tt
  /\ List.length (users (db (snd (subscribe c w))))
     = List.length (users (db w))
  /\ Forall2
       (fun r r' =>
          same_but_flag r r'
          /\ subscribed r'
             = if (chat_id r =? c)%Z then true else subscribed r)
       (users (db w)) (users (db (snd (subscribe c w))))
  /\ content (db (snd (subscribe c w))) = content (db w).
Proof.
  intros Hin.
  assert (X : existsb (fun r => (chat_id r =? c)%Z) (users (db w)) = true).
  { apply in_map_iff in Hin. destruct Hin as [r [Hr Hin]].
    apply existsb_exists. exists r. split; [exact Hin|].
    apply Z.eqb_eq. exact Hr. }
  cbn. rewrite X. repeat split.
  - unfold update_subscribed. apply length_map.
  - apply update_subscribed_rows.
Qed.

End Registry.

(** The new database satisfies both uniqueness constraints. *)
Lemma empty_db_unique LOWER :
  users_unique empty_db /\ content_unique LOWER empty_db.
Proof. split; constructor. Qed.

Lemma subscribe_then_unsubscribe_witness :
  let w' :=
    snd (handle_all noon
           (Subscribe 7 :: [Subscribe 8; Unsubscribe 9]
              ++ Unsubscribe 7 :: [Subscribe 9])%list%Z
           fresh_world) in
  (exists r, records_of 7 (db w') = [r] /\ subscribed r = false)
  /\ (exists listed,
        fst (get_subscribed_users noon w') = Return listed
        /\ ~ In 7%Z listed).
Proof.
  apply (subscribe_then_unsubscribe noon 7
           [Subscribe 8; Unsubscribe 9]%Z [Subscribe 9]%Z fresh_world).
  - constructor.
  - repeat constructor; discriminate.
  - repeat constructor; discriminate.
Defined.

Lemma subscribe_again_sets_only_the_flag_witness :
  let w := snd (handle_all noon [Subscribe 7; Unsubscribe 7]%Z fresh_world) in
  fst (subscribe_user noon 7 w) = Return tt
  /\ List.length (users (db (snd (subscribe_user noon 7 w))))
     = List.length (users (db w))
  /\ Forall2
       (fun r r' =>
          same_but_flag r r'
          /\ subscribed r'
             = if (chat_id r =? 7)%Z then true else subscribed r)
       (users (db w)) (users (db (snd (subscribe_user noon 7 w))))
  /\ content (db (snd (subscribe_user noon 7 w))) = content (db w).
Proof.
  apply (subscribe_again_sets_only_the_flag noon 7
           (snd (handle_all noon [Subscribe 7; Unsubscribe 7]%Z fresh_world))).
  left. reflexivity.
Defined.

(** Subscribing, unsubscribing and subscribing again keeps the first
    row, with its [id] and [created_at], while the sequence moves on. *)
Example subscribe_twice :
  db (snd (handle_all (fun k => Z.of_nat k)
             [Subscribe 7; Unsubscribe 7; Subscribe 7; Subscribe 8]%Z
             fresh_world))
  = {| users := [{| user_id := 1; chat_id := 7; subscribed := true;
                    user_created_at := 0 |};
                 {| user_id := 3; chat_id := 8; subscribed := true;
                    user_created_at := 3 |}];
       users_id_seq := 4; content := []; content_id_seq := 1 |}.
Proof. reflexivity. Qed.

(** Unsubscribing a chat that never subscribed changes no row. *)
Example unsubscribe_unknown :
  users (db (snd (unsubscribe_user noon 5 fresh_world))) = [].
Proof. reflexivity. Qed.

(* ================================================================== *)
(** * Further properties *)

(** ** Which replies [generate_word] accepts *)

Lemma subscript_key_returns v key x :
  subscript_key v key = Return x
  <-> exists fields, v = JObject fields /\ field key fields = Some x.
Proof.
  unfold field. split.
  - destruct v as [| b | n | s | items | fields]; cbn; try discriminate.
    destruct (find _ fields) as [kv|] eqn:F; [|discriminate].
    intros [= <-]. exists fields. rewrite F. split; reflexivity.
  - intros [fields [-> H]]. cbn.
    destruct (find _ fields) as [kv|]; [|discriminate].
    cbn in H. congruence.
Qed.

Lemma subscript_zero_object v f :
  subscript_zero v = Return (JObject f)
  <-> exists others, v = JArray (JObject f :: others).
Proof.
  split.
  - destruct v as [| b | n | s | items | fields]; cbn; try discriminate.
    + destruct (PyStr.first_char s); discriminate.
    + destruct items as [|x others]; cbn; [discriminate|].
      intros [= ->]. exists others. reflexivity.
  - intros [others ->]. reflexivity.
Qed.

(** [message_field] returns exactly from the bodies of the shape
    [carries_content]. *)
Lemma message_field_carries r v :
  message_field r = Return v <-> carries_content r v.
Proof.
  unfold message_field, carries_content. split.
  - destruct (json r) as [body|x]; cbn [obind]; [|discriminate].
    destruct (subscript_key body "choices") as [choices|x] eqn:H0;
      cbn [obind]; [|discriminate].
    destruct (subscript_zero choices) as [choice|x] eqn:H1;
      cbn [obind]; [|discriminate].
    destruct (subscript_key choice "message") as [message|x] eqn:H2;
      cbn [obind]; [|discriminate].
    intros H3.
    apply subscript_key_returns in H0. destruct H0 as [f0 [-> F0]].
    apply subscript_key_returns in H2. destruct H2 as [f1 [-> F1]].
    apply subscript_key_returns in H3. destruct H3 as [f2 [-> F2]].
    apply subscript_zero_object in H1. destruct H1 as [others ->].
    exists f0, f1, f2, others. auto.
  - intros (f0 & f1 & f2 & others & -> & F0 & F1 & F2). cbn [obind].
    rewrite (proj2 (subscript_key_returns (JObject f0) "choices" _)
               (ex_intro _ f0 (conj eq_refl F0))).
    cbn [obind subscript_zero PyStr.getitem nth_error].
    rewrite (proj2 (subscript_key_returns (JObject f1) "message" _)
               (ex_intro _ f1 (conj eq_refl F1))).
    cbn [obind].
    apply subscript_key_returns. exists f2; auto.
Qed.

(** X1. [generate_word] returns, rather than raises, exactly when the
    status is not 200 or the body has the shape
    [{"choices": [{"message": {"content": <str>}}]}]. *)
Theorem generate_word_returns_iff (r : response) :
  (exists t, snd (generate_word (Return r)) = Return t)
  <-> (status_code r <> 200%Z \/ exists s, carries_content r (JString s)).
Proof.
  unfold generate_word, message_content. split.
  - destruct (Z.eqb_spec (status_code r) 200) as [E|N]; [|auto].
    intros [t H]. right. cbn [snd] in H.
    destruct (message_field r) as [v|x] eqn:F; cbn [obind] in H;
      [|discriminate].
    destruct v as [| b | n | s | items | fields]; try discriminate.
    exists s. apply message_field_carries. exact F.
  - intros [N | [s C]].
    + destruct (Z.eqb_spec (status_code r) 200); [contradiction|].
      eexists. reflexivity.
    + apply message_field_carries in C.
      destruct (status_code r =? 200)%Z; cbn [snd].
      * rewrite C. eexists. reflexivity.
      * eexists. reflexivity.
Qed.

Lemma generate_word_returns_iff_witness :
  (exists t,
     snd (generate_word (Return (completion two_paragraphs))) = Return t)
  /\ (status_code {| status_code := 503; text := "overloaded";
                     json := Raise (Exn JSONDecodeError "") |}
      <> 200%Z
      \/ exists s,
           carries_content
             {| status_code := 503; text := "overloaded";
                json := Raise (Exn JSONDecodeError "") |}
             (JString s)).
Proof.
  split.
  - apply (proj2 (generate_word_returns_iff (completion two_paragraphs))).
    right. exists two_paragraphs.
    exists [("choices",
             JArray [JObject [("message",
               JObject [("role", JString "assistant");
                        ("content", JString two_paragraphs)])]])],
      [("message", JObject [("role", JString "assistant");
                            ("content", JString two_paragraphs)])],
      [("role", JString "assistant"); ("content", JString two_paragraphs)],
      [].
    repeat split.
  - apply (proj1 (generate_word_returns_iff
                    {| status_code := 503; text := "overloaded";
                       json := Raise (Exn JSONDecodeError "") |})).
    exists failure. reflexivity.
Defined.

(** A triple with its fields comes from three parts or more. *)
Lemma try_parse_word content w m e :
  try_parse content = (Some w, Some m, Some e) ->
  exists p0 p1 p2 rest,
    PyStr.split blank_line content = p0 :: p1 :: p2 :: rest
    /\ w = tidy "Word: " p0
    /\ m = tidy "Meaning: " p1
    /\ e = tidy "Example: " p2.
Proof.
  unfold try_parse, parse_content, tidy.
  destruct (PyStr.split blank_line content) as [|p0 [|p1 [|p2 rest]]];
    cbn [PyStr.getitem nth_error obind]; try discriminate.
  intros [= <- <- <-]. exists p0, p1, p2, rest. auto.
Qed.

(** X2. [generate_word] returns a triple with its three fields exactly
    when the status is 200, the body carries a [str] content and that
    content, stripped, has at least three parts between blank lines; the
    fields are then the tidied first three parts. *)
Theorem generate_word_word_iff (r : response) (w m e : string) :
  snd (generate_word (Return r)) = Return (Some w, Some m, Some e)
  <-> (status_code r = 200%Z
       /\ exists s p0 p1 p2 rest,
            carries_content r (JString s)
            /\ PyStr.split blank_line (PyStr.strip s) = p0 :: p1 :: p2 :: rest
            /\ w = tidy "Word: " p0
            /\ m = tidy "Meaning: " p1
            /\ e = tidy "Example: " p2).
Proof.
  unfold generate_word, message_content. split.
  - destruct (Z.eqb_spec (status_code r) 200) as [E|N]; cbn [snd];
      [|discriminate].
    destruct (message_field r) as [v|x] eqn:F; cbn [obind]; [|discriminate].
    destruct v as [| b | n | s | items | fields]; try discriminate.
    cbn [method_strip]. intros [= H]. split; [exact E|].
    destruct (try_parse_word _ _ _ _ H) as (p0 & p1 & p2 & rest & P & T).
    exists s, p0, p1, p2, rest. split; [|auto].
    apply message_field_carries. exact F.
  - intros (E & s & p0 & p1 & p2 & rest & C & P & -> & -> & ->).
    apply message_field_carries in C. rewrite E, C.
    cbn [Z.eqb Pos.eqb snd obind method_strip].
    rewrite (try_parse_first_three _ _ _ _ _ P). reflexivity.
Qed.

Lemma generate_word_word_iff_witness :
  status_code (completion three_paragraphs) = 200%Z
  /\ exists s p0 p1 p2 rest,
       carries_content (completion three_paragraphs) (JString s)
       /\ PyStr.split blank_line (PyStr.strip s) = p0 :: p1 :: p2 :: rest
       /\ "Lucid" = tidy "Word: " p0
       /\ "clear and easy to understand" = tidy "Meaning: " p1
       /\ "She gave a lucid explanation." = tidy "Example: " p2.
Proof.
  apply (proj1 (generate_word_word_iff (completion three_paragraphs)
                  "Lucid" "clear and easy to understand"
                  "She gave a lucid explanation.")).
  reflexivity.
Defined.

(** ** Reading the reply the prompt asks for *)

Lemma string_app_nil_r s : s ++ "" = s.
Proof. induction s as [|c s IH]; cbn; [|rewrite IH]; reflexivity. Qed.

Lemma string_app_assoc a b c : (a ++ b) ++ c = a ++ b ++ c.
Proof. induction a as [|x a IH]; cbn; [|rewrite IH]; reflexivity. Qed.

Lemma split_one_line a : forall cur,
  one_line a = true ->
  PyStr.split_from blank_line 0 cur a = [cur ++ a].
Proof.
  induction a as [|c a IH]; intros cur H.
  - cbn. rewrite string_app_nil_r. reflexivity.
  - cbn [one_line] in H. apply andb_prop in H. destruct H as [Hc Ha].
    cbn [PyStr.split_from]. rewrite prefix_blank_line.
    apply negb_true_iff in Hc.
    replace (match a with
             | String b _ => (c =? "010")%char && (b =? "010")%char
             | EmptyString => false
             end) with false by (destruct a; rewrite ?Hc; reflexivity).
    rewrite (IH _ Ha), string_app_assoc. reflexivity.
Qed.

Lemma split_paragraph a b : forall cur,
  one_line a = true ->
  PyStr.split_from blank_line 0 cur (a ++ blank_line ++ b)
  = (cur ++ a) :: PyStr.split_from blank_line 0 "" b.
Proof.
  induction a as [|c a IH]; intros cur H.
  - rewrite string_app_nil_r.
    change ("" ++ blank_line ++ b) with (String "010" (String "010" b)).
    cbn [PyStr.split_from]. rewrite prefix_blank_line. reflexivity.
  - cbn [one_line] in H. apply andb_prop in H. destruct H as [Hc Ha].
    cbn [append PyStr.split_from]. rewrite prefix_blank_line.
    apply negb_true_iff in Hc.
    replace (match a ++ blank_line ++ b with
             | String b0 _ => (c =? "010")%char && (b0 =? "010")%char
             | EmptyString => false
             end) with false
      by (destruct (a ++ blank_line ++ b); rewrite ?Hc; reflexivity).
    rewrite (IH _ Ha), string_app_assoc. reflexivity.
Qed.

(** The three paragraphs of the reply. *)
Lemma split_formatted w m e :
  one_line w = true -> one_line m = true -> one_line e = true ->
  PyStr.split blank_line (formatted w m e)
  = ["Word: " ++ w; "Meaning: " ++ m; "Example: " ++ e].
Proof.
  intros Hw Hm He. unfold PyStr.split, formatted.
  change ("Word: " ++ w ++ blank_line ++ "Meaning: " ++ m ++ blank_line
          ++ "Example: " ++ e)
    with (("Word: " ++ w) ++ blank_line
          ++ (("Meaning: " ++ m) ++ blank_line ++ ("Example: " ++ e))).
  rewrite split_paragraph by exact Hw.
  rewrite split_paragraph by exact Hm.
  rewrite split_one_line by exact He.
  reflexivity.
Qed.

Lemma reverse_cons c s :
  PyStr.reverse (String c s) = PyStr.reverse s ++ String c "".
Proof.
  change (String c s) with (String c "" ++ s). apply reverse_app.
Qed.

Lemma ends_visible_reverse s :
  ends_visible s = true ->
  exists a rest,
    PyStr.reverse s = String a rest
    /\ PyStr.code a < 128 /\ PyStr.space1 a = false.
Proof.
  induction s as [|c s IH]; [discriminate|].
  destruct s as [|c' s'].
  - cbn [ends_visible]. intros H. apply andb_prop in H.
    destruct H as [H1 H2]. exists c, "". repeat split.
    + apply Nat.ltb_lt. exact H1.
    + apply negb_true_iff. exact H2.
  - intros H. change (ends_visible (String c' s') = true) in H.
    destruct (IH H) as (a & rest & R & Ha & Hs).
    rewrite reverse_cons, R. exists a, (rest ++ String c ""). auto.
Qed.

(** A text that ends with a visible ASCII character keeps its end. *)
Lemma rstrip_visible s : ends_visible s = true -> PyStr.rstrip s = s.
Proof.
  intros H. destruct (ends_visible_reverse s H) as (a & rest & R & Ha & Hs).
  unfold PyStr.rstrip. rewrite R.
  assert (E : forall n, 128 <= n -> (PyStr.code a =? n) = false)
    by (intros n Hn; apply Nat.eqb_neq; lia).
  assert (L : (128 <=? PyStr.code a) = false)
    by (apply Nat.leb_gt; exact Ha).
  assert (D : PyStr.drop_space (fun a b => PyStr.space2 b a)
                (fun a b c => PyStr.space3 c b a) (String a rest)
              = String a rest).
  { cbn [PyStr.drop_space]. rewrite Hs.
    destruct rest as [|b [|c r]]; [reflexivity| |];
      unfold PyStr.space2, PyStr.space3;
      rewrite ?L, ?(E 128), ?(E 133), ?(E 138), ?(E 159), ?(E 160),
        ?(E 168), ?(E 169), ?(E 175) by lia;
      cbn [andb orb]; rewrite ?andb_false_r; reflexivity. }
  rewrite D, <- R. apply reverse_involutive.
Qed.

Lemma ends_visible_app p e :
  ends_visible e = true -> ends_visible (p ++ e) = true.
Proof.
  intros H. induction p as [|c p IH]; [exact H|].
  cbn [append]. destruct (p ++ e) as [|c' s'] eqn:A; [discriminate|].
  exact IH.
Qed.

(** The label at the head of a paragraph goes with the others. *)
Lemma tidy_labelled w m e :
  tidy "Word: " ("Word: " ++ w) = tidy "Word: " w
  /\ tidy "Meaning: " ("Meaning: " ++ m) = tidy "Meaning: " m
  /\ tidy "Example: " ("Example: " ++ e) = tidy "Example: " e.
Proof.
  unfold tidy, PyStr.replace.
  repeat split; [destruct w | destruct m | destruct e]; reflexivity.
Qed.

(** X3. A 200 reply in the format of the prompt, with one-line fields
    and a visible last character, is read back field by field: each
    field comes out tidied, and as it went in when tidying does not
    change it. *)
Theorem generate_word_reads_formatted (w m e : string) :
  one_line w = true -> one_line m = true -> one_line e = true ->
  ends_visible e = true ->
  generate_word (Return (completion (formatted w m e)))
  = ([], Return (Some (tidy "Word: " w), Some (tidy "Meaning: " m),
                 Some (tidy "Example: " e)))
  /\ (tidy "Word: " w = w -> tidy "Meaning: " m = m ->
      tidy "Example: " e = e ->
      generate_word (Return (completion (formatted w m e)))
      = ([], Return (Some w, Some m, Some e))).
Proof.
  intros Hw Hm He Hv.
  assert (G : generate_word (Return (completion (formatted w m e)))
              = ([], Return (Some (tidy "Word: " w),
                             Some (tidy "Meaning: " m),
                             Some (tidy "Example: " e)))).
  { assert (S : PyStr.strip (formatted w m e) = formatted w m e).
    { unfold PyStr.strip.
      replace (PyStr.lstrip (formatted w m e)) with (formatted w m e)
        by reflexivity.
      apply rstrip_visible. unfold formatted.
      rewrite <- !string_app_assoc. apply ends_visible_app. exact Hv. }
    change (generate_word (Return (completion (formatted w m e))))
      with (@nil string,
            Return (try_parse (PyStr.strip (formatted w m e)))).
    rewrite S.
    rewrite (try_parse_first_three _ _ _ _ _ (split_formatted w m e Hw Hm He)).
    destruct (tidy_labelled w m e) as (Tw & Tm & Te).
    fold (tidy "Word: " ("Word: " ++ w)).
    fold (tidy "Meaning: " ("Meaning: " ++ m)).
    fold (tidy "Example: " ("Example: " ++ e)).
    rewrite Tw, Tm, Te. reflexivity. }
  split; [exact G|].
  intros Tw Tm Te. rewrite G, Tw, Tm, Te. reflexivity.
Qed.

Lemma generate_word_reads_formatted_witness :
  generate_word
    (Return (completion (formatted "lucid" "clear" "a lucid explanation")))
  = ([], Return (Some "lucid", Some "clear", Some "a lucid explanation")).
Proof.
  apply (proj2 (generate_word_reads_formatted
                  "lucid" "clear" "a lucid explanation"
                  eq_refl eq_refl eq_refl eq_refl));
    reflexivity.
Defined.

(** Without an example the label itself comes back: the space after
    "Example:" is stripped with the end of the text, and the label is
    no longer found. *)
Example generate_word_empty_example :
  generate_word (Return (completion (formatted "lucid" "clear" "")))
  = ([], Return (Some "lucid", Some "clear", Some "Example:")).
Proof. reflexivity. Qed.

(** ** The fields come back stripped *)

Section Stripped.

Variable two : ascii -> ascii -> bool.
Variable three : ascii -> ascii -> ascii -> bool.

Lemma drop_space_length s :
  String.length (PyStr.drop_space two three s) <= String.length s.
Proof.
  destruct (drop_space_suffix two three _ s (le_n _)) as [p Hp].
  rewrite Hp at 2. clear Hp.
  induction p as [|c p IH]; cbn [append String.length]; lia.
Qed.

(** A text without white space at its head: [drop_space] returns it. *)
Lemma drop_space_fixed_head s :
  PyStr.drop_space two three s = s
  <-> match s with
      | EmptyString => True
      | String a s1 =>
        PyStr.space1 a = false
        /\ match s1 with
           | EmptyString => True
           | String b s2 =>
             two a b = false
             /\ match s2 with
                | EmptyString => True
                | String c _ => three a b c = false
                end
           end
      end.
Proof.
  destruct s as [|a s1]; [cbn; tauto|].
  cbn [PyStr.drop_space].
  destruct (PyStr.space1 a).
  { split; [|intros [H _]; discriminate]. intros H. exfalso.
    pose proof (drop_space_length s1) as L. rewrite H in L.
    cbn [String.length] in L. lia. }
  destruct s1 as [|b s2]; [tauto|].
  destruct (two a b).
  { split; [|intros [_ [H _]]; discriminate]. intros H. exfalso.
    pose proof (drop_space_length s2) as L. rewrite H in L.
    cbn [String.length] in L. lia. }
  destruct s2 as [|c s3]; [tauto|].
  destruct (three a b c); [|tauto].
  split; [|intros [_ [_ H]]; discriminate]. intros H. exfalso.
  pose proof (drop_space_length s3) as L. rewrite H in L.
  cbn [String.length] in L. lia.
Qed.

(** What [drop_space] returns has no white space at its head. *)
Lemma drop_space_idempotent n : forall s,
  String.length s <= n ->
  PyStr.drop_space two three (PyStr.drop_space two three s)
  = PyStr.drop_space two three s.
Proof.
  induction n as [|n IH]; intros s L.
  - destruct s; [reflexivity | cbn in L; lia].
  - destruct s as [|a s1]; [reflexivity|].
    cbn [String.length] in L.
    cbn [PyStr.drop_space].
    destruct (PyStr.space1 a) eqn:S1; [apply IH; lia|].
    destruct s1 as [|b s2].
    { cbn [PyStr.drop_space]. rewrite S1. reflexivity. }
    cbn [String.length] in L.
    destruct (two a b) eqn:S2; [apply IH; lia|].
    destruct s2 as [|c s3].
    { cbn [PyStr.drop_space]. rewrite S1, S2. reflexivity. }
    cbn [String.length] in L.
    destruct (three a b c) eqn:S3; [apply IH; lia|].
    cbn [PyStr.drop_space]. rewrite S1, S2, S3. reflexivity.
Qed.

(** The start of a text without white space at its head has none. *)
Lemma drop_space_fixed_prefix p q :
  PyStr.drop_space two three (p ++ q) = p ++ q ->
  PyStr.drop_space two three p = p.
Proof.
  intros H. apply drop_space_fixed_head in H. apply drop_space_fixed_head.
  destruct p as [|a [|b [|c p]]]; cbn [append] in H |- *; tauto.
Qed.

End Stripped.

Lemma lstrip_idempotent s : PyStr.lstrip (PyStr.lstrip s) = PyStr.lstrip s.
Proof. apply (drop_space_idempotent _ _ _ s (le_n _)). Qed.

Lemma rstrip_idempotent s : PyStr.rstrip (PyStr.rstrip s) = PyStr.rstrip s.
Proof.
  unfold PyStr.rstrip. rewrite reverse_involutive.
  rewrite (drop_space_idempotent _ _ _ (PyStr.reverse s) (le_n _)).
  reflexivity.
Qed.

(** [rstrip] returns the start of its argument. *)
Lemma rstrip_prefix s : exists q, s = PyStr.rstrip s ++ q.
Proof.
  unfold PyStr.rstrip.
  destruct (drop_space_suffix (fun a b => PyStr.space2 b a)
              (fun a b c => PyStr.space3 c b a) _ (PyStr.reverse s) (le_n _))
    as [q Hq].
  exists (PyStr.reverse q).
  rewrite <- reverse_app, <- Hq, reverse_involutive. reflexivity.
Qed.

(** Stripping what is stripped changes nothing. *)
Lemma strip_idempotent s : PyStr.strip (PyStr.strip s) = PyStr.strip s.
Proof.
  unfold PyStr.strip.
  assert (L : PyStr.lstrip (PyStr.rstrip (PyStr.lstrip s))
              = PyStr.rstrip (PyStr.lstrip s)).
  { destruct (rstrip_prefix (PyStr.lstrip s)) as [q Hq].
    apply (drop_space_fixed_prefix _ _ _ q).
    rewrite <- Hq. apply lstrip_idempotent. }
  rewrite L. apply rstrip_idempotent.
Qed.

(** X21. The fields of a triple that [generate_word] returns have no
    white space at their ends. *)
Theorem generate_word_fields_stripped (r : response) (w m e : string) :
  snd (generate_word (Return r)) = Return (Some w, Some m, Some e) ->
  PyStr.strip w = w /\ PyStr.strip m = m /\ PyStr.strip e = e.
Proof.
  unfold generate_word.
  destruct (status_code r =? 200)%Z; cbn [snd]; [|discriminate].
  destruct (message_content r) as [content|x]; cbn [obind]; [|discriminate].
  intros [= H].
  destruct (try_parse_word _ _ _ _ H) as (p0 & p1 & p2 & rest & _ & -> & -> & ->).
  unfold tidy. rewrite !strip_idempotent. auto.
Qed.

Lemma generate_word_fields_stripped_witness :
  PyStr.strip "Lucid" = "Lucid"
  /\ PyStr.strip "clear and easy to understand"
     = "clear and easy to understand"
  /\ PyStr.strip "She gave a lucid explanation."
     = "She gave a lucid explanation.".
Proof.
  apply (generate_word_fields_stripped (completion three_paragraphs)).
  reflexivity.
Defined.

(** ** More on the resolver *)

Section ResolverMore.

Variable LOWER : string -> string.
Variable CURRENT_TIMESTAMP : nat -> Z.

Local Abbreviation loop := (get_new_unique_word_loop LOWER CURRENT_TIMESTAMP).
Local Abbreviation resolve := (get_new_unique_word LOWER CURRENT_TIMESTAMP).

(** An unsuccessful attempt hands the rest of the loop a world with the
    same database and one more call. *)
Lemma loop_skip word_generator n w :
  unsuccessful LOWER (db w) (word_generator (generated w)) = true ->
  exists w1,
    loop word_generator (S n) w = loop word_generator n w1
    /\ db w1 = db w /\ generated w1 = S (generated w) /\ sent w1 = sent w.
Proof.
  unfold unsuccessful.
  destruct (word_generator (generated w)) as [printed [[[word m] e]|x]] eqn:G;
    cbn [snd]; [|discriminate].
  destruct (PyStr.truthy word) eqn:T; cbn [negb orb]; intros E.
  - exists (queried (called printed w)).
    rewrite (loop_step_duplicate _ _ _ n w _ _ _ _ G T E). auto.
  - exists (called printed w).
    rewrite (loop_step_no_word _ _ _ n w _ _ _ _ G T). auto.
Qed.

Lemma loop_raises_with_generator word_generator e k : forall n w,
  k < n ->
  (forall j, j < k ->
     unsuccessful LOWER (db w) (word_generator (generated w + j)) = true) ->
  snd (word_generator (generated w + k)) = Raise e ->
  fst (loop word_generator n w) = Raise e
  /\ generated (snd (loop word_generator n w)) = generated w + S k
  /\ db (snd (loop word_generator n w)) = db w
  /\ sent (snd (loop word_generator n w)) = sent w.
Proof.
  induction k as [|k IH]; intros n w Hk Hu He.
  - destruct n as [|n]; [lia|]. rewrite Nat.add_0_r in He.
    destruct (word_generator (generated w)) as [printed r] eqn:G.
    cbn [snd] in He. subst r.
    rewrite (loop_step_raise _ _ _ n w _ _ G). cbn. repeat split. lia.
  - destruct n as [|n]; [lia|].
    destruct (loop_skip word_generator n w) as (w1 & -> & Hd & Hg & Hs).
    { rewrite <- (Nat.add_0_r (generated w)). apply Hu. lia. }
    destruct (IH n w1) as (R1 & R2 & R3 & R4).
    + lia.
    + intros j Hj. rewrite Hd, Hg.
      replace (S (generated w) + j) with (generated w + S j) by lia.
      apply Hu. lia.
    + rewrite Hg.
      replace (S (generated w) + k) with (generated w + S k) by lia.
      exact He.
    + rewrite R1, R2, R3, R4, Hd, Hg, Hs. repeat split. lia.
Qed.

(** X4. An exception of [generate_word()] is not retried: when the
    attempts before it returned no word or stored words, the resolver
    raises it right after that call, with the database as it was. *)
Theorem resolver_raises_with_generator word_generator w e k :
  k < 5 ->
  (forall j, j < k ->
     unsuccessful LOWER (db w) (word_generator (generated w + j)) = true) ->
  snd (word_generator (generated w + k)) = Raise e ->
  fst (resolve word_generator w) = Raise e
  /\ generated (snd (resolve word_generator w)) = generated w + S k
  /\ db (snd (resolve word_generator w)) = db w.
Proof.
  intros Hk Hu He.
  destruct (loop_raises_with_generator word_generator e k 5 w Hk Hu He)
    as (R1 & R2 & R3 & _).
  auto.
Qed.

(** Replies with a status other than 200: one printed body per attempt,
    no statement. *)
Lemma loop_refused requests_post n : forall w,
  (forall j, j < n -> refused (requests_post (generated w + j)) = true) ->
  loop (live_generator requests_post) n w
  = (Return failure,
     {| db := db w; statements := statements w;
        generated := generated w + n; sent := sent w;
        stdout := (stdout w ++
                   map (fun k => reply_text (requests_post k))
                     (seq (generated w) n))%list |}).
Proof.
  induction n as [|n IH]; intros w H.
  - cbn. rewrite Nat.add_0_r, app_nil_r. destruct w; reflexivity.
  - assert (H0 : refused (requests_post (generated w)) = true)
      by (rewrite <- (Nat.add_0_r (generated w)); apply H; lia).
    destruct (requests_post (generated w)) as [r|x] eqn:P; [|discriminate].
    cbn [refused] in H0. apply negb_true_iff in H0.
    assert (G : live_generator requests_post (generated w)
                = ([text r], Return (@None string, @None string,
                                     @None string))).
    { unfold live_generator, generate_word. rewrite P, H0. reflexivity. }
    rewrite (loop_step_no_word _ _ _ n w _ _ _ _ G eq_refl).
    rewrite IH.
    + cbn [db statements generated sent stdout called seq map reply_text].
      rewrite P. cbn [reply_text].
      rewrite <- app_assoc, Nat.add_succ_r. reflexivity.
    + intros j Hj. cbn [generated called].
      replace (S (generated w) + j) with (generated w + S j) by lia.
      apply H. lia.
Qed.

(** X6. When the service answers the five requests with a status other
    than 200, the resolver returns [(None, None, None)] after printing
    the five bodies in order; it executes no statement and leaves the
    database alone. *)
Theorem resolver_refused_five_times requests_post w :
  (forall j, j < 5 -> refused (requests_post (generated w + j)) = true) ->
  resolve (live_generator requests_post) w
  = (Return failure,
     {| db := db w; statements := statements w;
        generated := generated w + 5; sent := sent w;
        stdout := (stdout w ++
                   map (fun k => reply_text (requests_post k))
                     (seq (generated w) 5))%list |}).
Proof. apply loop_refused. Qed.

(** X8. Once [save_content] has returned, [word_exists] is true for the
    saved word in every letter case, and as before for the others. *)
Theorem save_content_then_word_exists w s m e x :
  fst (save_content CURRENT_TIMESTAMP (Some s) (Some m) (Some e) w)
  = Return tt ->
  sql_word_exists LOWER (Some x)
    (db (snd (save_content CURRENT_TIMESTAMP (Some s) (Some m) (Some e) w)))
  = sql_word_exists LOWER (Some x) (db w) || (LOWER s =? LOWER x)%string.
Proof.
  unfold save_content, execute, sql_insert_content.
  destruct (existsb (fun r => (word r =? s)%string) (content (db w)));
    cbn [fst snd db content sql_word_exists]; [discriminate|].
  intros _. rewrite existsb_app. cbn [existsb word]. rewrite orb_false_r.
  reflexivity.
Qed.

(** X9. After a run that returned a word, a run whose generator only
    returns that word, in whatever letter case, returns
    [(None, None, None)] after its five calls and stores nothing. *)
Theorem resolver_second_run_fails word_generator w s m e x m' e' :
  fst (resolve word_generator w) = Return (Some s, m, e) ->
  LOWER x = LOWER s ->
  fst (resolve (stub (Some x, m', e')) (snd (resolve word_generator w)))
  = Return failure
  /\ generated (snd (resolve (stub (Some x, m', e'))
                       (snd (resolve word_generator w))))
     = generated (snd (resolve word_generator w)) + 5
  /\ db (snd (resolve (stub (Some x, m', e'))
                (snd (resolve word_generator w))))
     = db (snd (resolve word_generator w)).
Proof.
  intros R Hx.
  assert (E : sql_word_exists LOWER (Some x)
                (db (snd (resolve word_generator w))) = true).
  { destruct (get_new_unique_word_cases LOWER CURRENT_TIMESTAMP
                word_generator w)
      as [(Hr & _) | [(k & s0 & m0 & e0 & now & Hr & _ & _ & _ & _ & _ & _
                       & Hc & _)
                     | (k & e0 & Hr & _)]];
      rewrite Hr in R; try discriminate.
    injection R as <- _ _.
    cbn [sql_word_exists]. rewrite Hc, existsb_app. cbn [existsb word].
    rewrite Hx, String.eqb_refl. rewrite orb_true_r. reflexivity. }
  apply (proj2 (resolver_attempts LOWER CURRENT_TIMESTAMP
                  (stub (Some x, m', e'))
                  (snd (resolve word_generator w)))).
  intros j _. unfold unsuccessful, stub. cbn [snd].
  rewrite E. apply orb_true_r.
Qed.

End ResolverMore.

Lemma resolver_raises_with_generator_witness :
  fst (get_new_unique_word lower_ascii noon
         (fun k => if k <? 3 then ([], Return lucid)
                   else ([], Raise (Exn ConnectionError "unreachable")))
         lucid_world)
  = Raise (Exn ConnectionError "unreachable")
  /\ generated (snd (get_new_unique_word lower_ascii noon
                       (fun k => if k <? 3 then ([], Return lucid)
                                 else ([], Raise (Exn ConnectionError
                                                    "unreachable")))
                       lucid_world))
     = generated lucid_world + 3
  /\ db (snd (get_new_unique_word lower_ascii noon
                (fun k => if k <? 3 then ([], Return lucid)
                          else ([], Raise (Exn ConnectionError
                                             "unreachable")))
                lucid_world))
     = db lucid_world.
Proof.
  apply (resolver_raises_with_generator lower_ascii noon
           (fun k => if k <? 3 then ([], Return lucid)
                     else ([], Raise (Exn ConnectionError "unreachable")))
           lucid_world (Exn ConnectionError "unreachable") 2).
  - lia.
  - intros j Hj.
    destruct j as [|[|j]]; [reflexivity | reflexivity | lia].
  - reflexivity.
Defined.

Lemma resolver_refused_five_times_witness :
  get_new_unique_word lower_ascii noon
    (live_generator
       (fun k => Return {| status_code := 429; text := PyStr.str_of_int
                                                          (Z.of_nat k);
                           json := Raise (Exn JSONDecodeError "") |}))
    lucid_world
  = (Return failure,
     {| db := lucid_db; statements := 2; generated := 6; sent := [];
        stdout := ["1"; "2"; "3"; "4"; "5"] |}).
Proof.
  apply (resolver_refused_five_times lower_ascii noon
           (fun k => Return {| status_code := 429;
                               text := PyStr.str_of_int (Z.of_nat k);
                               json := Raise (Exn JSONDecodeError "") |})
           lucid_world).
  intros j _. reflexivity.
Defined.

Lemma save_content_then_word_exists_witness :
  sql_word_exists lower_ascii (Some "TERSE")
    (db (snd (save_content noon (Some "Terse") (Some "brief")
                (Some "Be terse.") lucid_world)))
  = sql_word_exists lower_ascii (Some "TERSE") (db lucid_world)
    || (lower_ascii "Terse" =? lower_ascii "TERSE")%string.
Proof.
  apply (save_content_then_word_exists lower_ascii noon lucid_world
           "Terse" "brief" "Be terse." "TERSE").
  reflexivity.
Defined.

Lemma resolver_second_run_fails_witness :
  fst (get_new_unique_word lower_ascii noon
         (stub (Some "LUCID", None, None))
         (snd (get_new_unique_word lower_ascii noon (stub lucid)
                 fresh_world)))
  = Return failure
  /\ generated (snd (get_new_unique_word lower_ascii noon
                       (stub (Some "LUCID", None, None))
                       (snd (get_new_unique_word lower_ascii noon
                               (stub lucid) fresh_world))))
     = generated (snd (get_new_unique_word lower_ascii noon (stub lucid)
                         fresh_world)) + 5
  /\ db (snd (get_new_unique_word lower_ascii noon
                (stub (Some "LUCID", None, None))
                (snd (get_new_unique_word lower_ascii noon (stub lucid)
                        fresh_world))))
     = db (snd (get_new_unique_word lower_ascii noon (stub lucid)
                  fresh_world)).
Proof.
  apply (resolver_second_run_fails lower_ascii noon (stub lucid) fresh_world
           "lucid" (Some "clear") (Some "a lucid explanation")
           "LUCID" None None).
  - reflexivity.
  - reflexivity.
Defined.

(** ** More on the subscriber registry *)

(** An update for a chat without a row changes nothing. *)
Lemma update_subscribed_unknown b c rows :
  ~ In c (map chat_id rows) -> update_subscribed b c rows = rows.
Proof.
  induction rows as [|r rows IH]; intros H; [reflexivity|].
  cbn [update_subscribed map]. fold (update_subscribed b c rows).
  cbn [map In] in H.
  destruct (Z.eqb_spec (chat_id r) c) as [E|E]; [tauto|].
  rewrite IH by tauto. reflexivity.
Qed.

(** Setting the flag twice is setting it once. *)
Lemma update_subscribed_twice b c rows :
  update_subscribed b c (update_subscribed b c rows)
  = update_subscribed b c rows.
Proof.
  induction rows as [|r rows IH]; [reflexivity|].
  cbn [update_subscribed map]. fold (update_subscribed b c rows).
  fold (update_subscribed b c (update_subscribed b c rows)).
  rewrite IH.
  destruct (Z.eqb_spec (chat_id r) c) as [E|E].
  - cbn [set_subscribed chat_id]. rewrite (proj2 (Z.eqb_eq _ _) E).
    reflexivity.
  - rewrite (proj2 (Z.eqb_neq _ _) E). reflexivity.
Qed.

Lemma update_subscribed_keeps_known b c c' rows :
  existsb (fun r => (chat_id r =? c)%Z) (update_subscribed b c' rows)
  = existsb (fun r => (chat_id r =? c)%Z) rows.
Proof.
  induction rows as [|r rows IH]; [reflexivity|].
  cbn [update_subscribed map existsb]. fold (update_subscribed b c' rows).
  rewrite IH. destruct (chat_id r =? c')%Z; reflexivity.
Qed.

(** A chat is listed when one of its rows is flagged. *)
Lemma listed_iff c d :
  In c (sql_subscribed d) <-> existsb subscribed (records_of c d) = true.
Proof.
  unfold sql_subscribed, records_of. rewrite in_map_iff, existsb_exists.
  split.
  - intros [r [Hc Hin]]. apply filter_In in Hin. destruct Hin as [Hin Hs].
    exists r. split; [|exact Hs].
    apply filter_In. split; [exact Hin | apply Z.eqb_eq; exact Hc].
  - intros [r [Hin Hs]]. apply filter_In in Hin. destruct Hin as [Hin Hc].
    exists r. split; [apply Z.eqb_eq; exact Hc|].
    apply filter_In. split; assumption.
Qed.

(** Under the [UNIQUE] constraint no chat is listed twice. *)
Lemma listed_once rows :
  NoDup (map chat_id rows) -> NoDup (map chat_id (filter subscribed rows)).
Proof.
  induction rows as [|r rows IH]; cbn [map filter]; intros U;
    [constructor|].
  inversion U as [|x l Hnotin U']; subst.
  destruct (subscribed r); [|auto].
  cbn [map]. constructor; [|auto].
  intros Hin. apply Hnotin. apply in_map_iff in Hin.
  destruct Hin as [r' [Hc Hin]]. apply filter_In in Hin.
  rewrite <- Hc. apply in_map. tauto.
Qed.

Section RegistryMore.

Variable CURRENT_TIMESTAMP : nat -> Z.

Local Abbreviation handle := (handle_all CURRENT_TIMESTAMP).

(** X10. Whatever commands are handled, [users] keeps at most one row
    per chat, and [get_subscribed_users] lists no chat twice. *)
Theorem registry_lists_each_chat_once ops w :
  users_unique (db w) ->
  users_unique (db (snd (handle ops w)))
  /\ exists listed,
       fst (get_subscribed_users CURRENT_TIMESTAMP (snd (handle ops w)))
       = Return listed
       /\ NoDup listed.
Proof.
  intros U.
  pose proof (handle_all_keeps_unique CURRENT_TIMESTAMP ops w U) as U'.
  split; [exact U'|].
  exists (sql_subscribed (db (snd (handle ops w)))).
  split; [reflexivity|]. apply listed_once. exact U'.
Qed.

(** X11. [unsubscribe_user] for a chat that has no row returns and
    leaves [users] as it was. *)
Theorem unsubscribe_unknown_chat c w :
  ~ In c (map chat_id (users (db w))) ->
  fst (unsubscribe_user CURRENT_TIMESTAMP c w) = Return tt
  /\ db (snd (unsubscribe_user CURRENT_TIMESTAMP c w)) = db w.
Proof.
  intros H. split; [reflexivity|].
  cbn. rewrite (update_subscribed_unknown false c _ H).
  destruct (db w); reflexivity.
Qed.

(** X12. Handling the same command a second time leaves the rows of
    [users] as the first time left them; a second [subscribe_user]
    still takes a value of the [id] sequence. *)
Theorem registry_commands_idempotent c w :
  users (db (snd (handle_all CURRENT_TIMESTAMP
                    [Subscribe c; Subscribe c] w)))
  = users (db (snd (handle_all CURRENT_TIMESTAMP [Subscribe c] w)))
  /\ users_id_seq (db (snd (handle_all CURRENT_TIMESTAMP
                             [Subscribe c; Subscribe c] w)))
     = (users_id_seq (db w) + 2)%Z
  /\ users (db (snd (handle_all CURRENT_TIMESTAMP
                       [Unsubscribe c; Unsubscribe c] w)))
     = users (db (snd (handle_all CURRENT_TIMESTAMP [Unsubscribe c] w))).
Proof.
  repeat split.
  - cbn.
    destruct (existsb (fun r => (chat_id r =? c)%Z) (users (db w))) eqn:X.
    + rewrite update_subscribed_keeps_known, X.
      apply update_subscribed_twice.
    + rewrite existsb_app. cbn [existsb chat_id].
      rewrite Z.eqb_refl, orb_true_r.
      unfold update_subscribed. rewrite map_app. cbn [map chat_id].
      rewrite Z.eqb_refl. cbn [set_subscribed user_id chat_id
                                 user_created_at].
      f_equal. rewrite <- (map_id (users (db w))) at 2.
      apply map_ext_in. intros r Hin.
      destruct (Z.eqb_spec (chat_id r) c) as [E|E]; [|reflexivity].
      exfalso.
      assert (Y : existsb (fun r => (chat_id r =? c)%Z) (users (db w))
                  = true)
        by (apply existsb_exists; exists r; split;
            [exact Hin | apply Z.eqb_eq; exact E]).
      congruence.
  - cbn. lia.
  - cbn. apply update_subscribed_twice.
Qed.

(** X13. After [subscribe_user c], and whatever other chats command
    next, [get_subscribed_users] lists [c]. *)
Theorem subscribe_makes_listed c after w :
  Forall (fun op => command_chat op <> c) after ->
  In c (sql_subscribed (db (snd (handle (Subscribe c :: after) w)))).
Proof.
  intros F. apply listed_iff.
  rewrite handle_all_cons, (handle_all_other_chats _ c after _ F).
  unfold records_of. cbn.
  destruct (existsb (fun r => (chat_id r =? c)%Z) (users (db w))) eqn:X.
  - rewrite update_subscribed_same.
    pose proof (some_records c _ X) as N.
    destruct (filter (fun r => (chat_id r =? c)%Z) (users (db w)))
      as [|r l]; [contradiction | reflexivity].
  - rewrite filter_app, existsb_app. cbn [filter chat_id].
    rewrite Z.eqb_refl. cbn. apply orb_true_r.
Qed.

(** X14. The commands of other chats do not change whether the chat [c]
    is listed. *)
Theorem other_chats_do_not_interfere c ops w :
  Forall (fun op => command_chat op <> c) ops ->
  In c (sql_subscribed (db (snd (handle ops w))))
  <-> In c (sql_subscribed (db w)).
Proof.
  intros F. rewrite !listed_iff.
  rewrite (handle_all_other_chats _ c ops w F). reflexivity.
Qed.

End RegistryMore.

Lemma registry_lists_each_chat_once_witness :
  let w :=
    snd (handle_all noon [Subscribe 7; Subscribe 8; Subscribe 7]%Z
           fresh_world) in
  users_unique (db w)
  /\ exists listed,
       fst (get_subscribed_users noon w) = Return listed /\ NoDup listed.
Proof.
  apply (registry_lists_each_chat_once noon
           [Subscribe 7; Subscribe 8; Subscribe 7]%Z fresh_world).
  constructor.
Defined.

Lemma unsubscribe_unknown_chat_witness :
  fst (unsubscribe_user noon 5 fresh_world) = Return tt
  /\ db (snd (unsubscribe_user noon 5 fresh_world)) = db fresh_world.
Proof.
  apply (unsubscribe_unknown_chat noon 5 fresh_world). intros [].
Defined.

Lemma subscribe_makes_listed_witness :
  In 7%Z
    (sql_subscribed
       (db (snd (handle_all noon
                   (Subscribe 7 :: [Unsubscribe 8; Subscribe 9])%Z
                   fresh_world)))).
Proof.
  apply (subscribe_makes_listed noon 7 [Unsubscribe 8; Subscribe 9]%Z
           fresh_world).
  repeat constructor; discriminate.
Defined.

Lemma other_chats_do_not_interfere_witness :
  In 7%Z
    (sql_subscribed
       (db (snd (handle_all noon [Unsubscribe 8; Subscribe 9]%Z
                   (snd (handle_all noon [Subscribe 7]%Z fresh_world)))))).
Proof.
  assert (F : Forall (fun op => command_chat op <> 7%Z)
                 [Unsubscribe 8; Subscribe 9]%Z)
    by (repeat constructor; discriminate).
  apply (proj2 (other_chats_do_not_interfere noon 7
                  [Unsubscribe 8; Subscribe 9]%Z
                  (snd (handle_all noon [Subscribe 7]%Z fresh_world)) F)).
  left. reflexivity.
Defined.

(** ** More on the broadcaster *)

Section BroadcasterMore.

Variable bot_send_message : nat -> Z -> string -> outcome unit.

Local Abbreviation deliver := (broadcast bot_send_message).

(** The loop over two lists in a row. *)
Lemma broadcast_app message chats1 : forall chats2 w,
  deliver message (chats1 ++ chats2)%list w
  = match deliver message chats1 w with
    | (Return _, w1) => deliver message chats2 w1
    | (Raise e, w1) => (Raise e, w1)
    end.
Proof.
  unfold broadcast.
  induction chats1 as [|c chats1 IH]; intros chats2 w; [reflexivity|].
  cbn [app for_each]. unfold bind.
  destruct (try_except_Exception _ _ w) as [[[]|e] w1]; [apply IH|].
  reflexivity.
Qed.

(** When the deliveries raise nothing but [Exception]s the loop goes
    through the whole list. *)
Lemma broadcast_returns message chats : forall w,
  only_delivery_errors bot_send_message message chats ->
  fst (deliver message chats w) = Return tt
  /\ sent (snd (deliver message chats w))
     = (sent w ++ map (fun c => (c, message)) chats)%list
  /\ db (snd (deliver message chats w)) = db w.
Proof.
  induction chats as [|c rest IH]; intros w Hex.
  - cbn. rewrite app_nil_r. auto.
  - assert (Hrest : only_delivery_errors bot_send_message message rest)
      by (intros k c' e Hin; apply (Hex k c' e); right; exact Hin).
    cbn [map].
    destruct (bot_send_message (List.length (sent w)) c message)
      as [[]|e] eqn:S.
    + rewrite (broadcast_step_delivered _ message c rest w S).
      match goal with
      | |- context [broadcast _ _ rest ?w1] =>
        destruct (IH w1 Hrest) as (Hr & Hs & Hd)
      end.
      rewrite Hr, Hs, Hd. cbn [sent db]. rewrite <- app_assoc. auto.
    + assert (E : is_Exception e = true)
        by (apply (Hex (List.length (sent w)) c e);
            [left; reflexivity | exact S]).
      rewrite (broadcast_step_failed _ message c rest w e S E).
      match goal with
      | |- context [broadcast _ _ rest ?w1] =>
        destruct (IH w1 Hrest) as (Hr & Hs & Hd)
      end.
      rewrite Hr, Hs, Hd. cbn [sent db]. rewrite <- app_assoc. auto.
Qed.

(** X15. An error that is not an [Exception] (a cancellation) ends the
    loop where it is raised: the chats before it were attempted, the
    chats after it are not, and the error leaves [send_daily_word]. *)
Theorem broadcast_stops_at_cancellation message before c after w e :
  only_delivery_errors bot_send_message message before ->
  bot_send_message (List.length (sent w) + List.length before) c message
  = Raise e ->
  is_Exception e = false ->
  fst (deliver message (before ++ c :: after)%list w) = Raise e
  /\ sent (snd (deliver message (before ++ c :: after)%list w))
     = (sent w ++ map (fun c => (c, message)) (before ++ [c]))%list.
Proof.
  intros Hex S E. rewrite broadcast_app.
  destruct (broadcast_returns message before w Hex) as (Hr & Hs & _).
  destruct (deliver message before w) as [r w1]. cbn [fst snd] in Hr, Hs.
  subst r.
  assert (S1 : bot_send_message (List.length (sent w1)) c message = Raise e)
    by (rewrite Hs, length_app, length_map; exact S).
  unfold broadcast. cbn [for_each]. unfold bind.
  unfold try_except_Exception, send_message. rewrite S1, E.
  cbn [fst snd sent]. rewrite Hs, map_app, app_assoc. auto.
Qed.

End BroadcasterMore.

Lemma broadcast_stops_at_cancellation_witness :
  fst (broadcast
         (fun _ c _ => if (c =? 2)%Z then Raise (Exn CancelledError "")
                       else Return tt)
         "word" ([1] ++ 2 :: [3])%list%Z fresh_world)
  = Raise (Exn CancelledError "")
  /\ sent (snd (broadcast
                  (fun _ c _ => if (c =? 2)%Z
                                then Raise (Exn CancelledError "")
                                else Return tt)
                  "word" ([1] ++ 2 :: [3])%list%Z fresh_world))
     = (sent fresh_world
        ++ map (fun c => (c, "word")) ([1] ++ [2])%list%Z)%list.
Proof.
  apply (broadcast_stops_at_cancellation
           (fun _ c _ => if (c =? 2)%Z then Raise (Exn CancelledError "")
                         else Return tt)
           "word" [1%Z] 2%Z [3%Z] fresh_world (Exn CancelledError "")).
  - intros k c e [<- | []]. discriminate.
  - reflexivity.
  - reflexivity.
Defined.

(** ** [send_daily_word] and the command handlers *)

Section Pipeline.

Variable LOWER : string -> string.
Variable CURRENT_TIMESTAMP : nat -> Z.
Variable word_generator : generator.
Variable bot_send_message : nat -> Z -> string -> outcome unit.

Local Abbreviation resolve :=
  (get_new_unique_word LOWER CURRENT_TIMESTAMP word_generator).
Local Abbreviation daily :=
  (send_daily_word LOWER CURRENT_TIMESTAMP word_generator bot_send_message).

(** The resolver sends nothing and leaves [users] alone. *)
Lemma get_new_unique_word_frame w :
  users (db (snd (resolve w))) = users (db w)
  /\ sent (snd (resolve w)) = sent w.
Proof.
  unfold get_new_unique_word.
  destruct (loop_run LOWER CURRENT_TIMESTAMP word_generator 5 w)
    as [w' _ Hdb _ Hs | k s m e now w' _ _ _ _ _ _ Hu _ Hs
       | k e w' _ _ _ _ Hu _ Hs].
  - rewrite Hdb. auto.
  - auto.
  - auto.
Qed.

(** X7. The resolver keeps the uniqueness constraints: no two entries
    of [content] with the same word, letter case aside, hence none with
    the same text, and at most one row of [users] per chat. *)
Theorem resolver_keeps_uniqueness w :
  content_unique LOWER (db w) ->
  users_unique (db w) ->
  content_unique LOWER (db (snd (resolve w)))
  /\ NoDup (map word (content (db (snd (resolve w)))))
  /\ users_unique (db (snd (resolve w))).
Proof.
  intros C U.
  pose proof (resolver_keeps_content_unique LOWER CURRENT_TIMESTAMP
                word_generator w C) as C'.
  split; [exact C'|]. split.
  - unfold content_unique in C'. rewrite <- map_map in C'.
    apply NoDup_map_inv in C'. exact C'.
  - unfold users_unique.
    rewrite (proj1 (get_new_unique_word_frame w)). exact U.
Qed.

(** X16. When the resolver has no word, [send_daily_word] sends nothing:
    after a [(None, None, None)] it prints its one line and returns;
    an exception of the resolver leaves it as it is. *)
Theorem send_daily_word_without_a_word w :
  (forall word meaning example,
     fst (resolve w) = Return (word, meaning, example) ->
     PyStr.truthy word = false ->
     fst (daily w) = Return tt
     /\ sent (snd (daily w)) = sent w
     /\ stdout (snd (daily w))
        = (stdout (snd (resolve w))
           ++ ["Failed to generate unique word."])%list
     /\ db (snd (daily w)) = db w)
  /\ (forall e,
        fst (resolve w) = Raise e ->
        fst (daily w) = Raise e
        /\ sent (snd (daily w)) = sent w
        /\ snd (daily w) = snd (resolve w)).
Proof.
  destruct (get_new_unique_word_frame w) as [_ Hs].
  split.
  - intros word meaning example R T.
    destruct (get_new_unique_word_cases LOWER CURRENT_TIMESTAMP
                word_generator w)
      as [(Hr & _ & Hdb & _)
         | [(k & s & m & e & now & Hr & Hne & _) | (k & e & Hr & _)]];
      rewrite Hr in R; try discriminate.
    + unfold send_daily_word, bind.
      destruct (get_new_unique_word _ _ _ w) as [r w1].
      cbn [fst snd] in *. subst r. cbn. auto.
    + injection R as <- <- <-. destruct s; [contradiction | discriminate].
  - intros e R. unfold send_daily_word, bind.
    destruct (get_new_unique_word _ _ _ w) as [r w1].
    cbn [fst snd] in *. subst r. auto.
Qed.

(** X17. When the resolver returns a word and the deliveries raise
    nothing but [Exception]s, [send_daily_word] returns after attempting
    to send the same message, made of the returned triple, once to each
    chat that was subscribed before the run, in the order of the
    list. *)
Theorem send_daily_word_delivers w word meaning example :
  fst (resolve w) = Return (word, meaning, example) ->
  PyStr.truthy word = true ->
  only_delivery_errors bot_send_message
    (daily_message word meaning example) (sql_subscribed (db w)) ->
  fst (daily w) = Return tt
  /\ sent (snd (daily w))
     = (sent w ++
        map (fun c => (c, daily_message word meaning example))
          (sql_subscribed (db w)))%list
  /\ db (snd (daily w)) = db (snd (resolve w)).
Proof.
  intros R T Hex.
  destruct (get_new_unique_word_frame w) as [Hu Hs].
  destruct (get_new_unique_word _ _ _ w) as [r w1] eqn:G.
  cbn [fst snd] in *. subst r.
  rewrite (send_daily_word_broadcasts _ _ _ bot_send_message w _ _ _ _ G T).
  assert (L : sql_subscribed (db w1) = sql_subscribed (db w))
    by (unfold sql_subscribed; rewrite Hu; reflexivity).
  rewrite L.
  destruct (broadcast_returns bot_send_message
              (daily_message word meaning example) (sql_subscribed (db w))
              (queried w1) Hex) as (Br & Bs & Bd).
  rewrite Br, Bs, Bd. cbn [sent db queried]. rewrite Hs. auto.
Qed.

Local Abbreviation iknow :=
  (Handlers.regenerate_word LOWER CURRENT_TIMESTAMP word_generator
     bot_send_message).

(** X18. [regenerate_word] answers the chat that asked and no other:
    after a run of the resolver that returned, it attempts one message
    to that chat, the new word or the apology, and ends as that delivery
    ends, the word staying stored; an exception of the resolver leaves
    it before anything is sent. *)
Theorem regenerate_word_answers_the_sender chat w :
  match fst (resolve w) with
  | Return (word, meaning, example) =>
    let reply :=
      if PyStr.truthy word
      then Handlers.new_word_message word meaning example
      else Handlers.apology in
    fst (iknow chat w) = bot_send_message (List.length (sent w)) chat reply
    /\ sent (snd (iknow chat w)) = (sent w ++ [(chat, reply)])%list
    /\ db (snd (iknow chat w)) = db (snd (resolve w))
  | Raise e =>
    fst (iknow chat w) = Raise e /\ sent (snd (iknow chat w)) = sent w
  end.
Proof.
  destruct (get_new_unique_word_frame w) as [_ Hs].
  unfold Handlers.regenerate_word, bind.
  destruct (get_new_unique_word _ _ _ w) as [[[[word meaning] example]|e] w1];
    cbn [fst snd] in *.
  - destruct (PyStr.truthy word); cbn [negb]; unfold send_message;
      cbn [fst snd sent db]; rewrite Hs; auto.
  - auto.
Qed.

(** X19. The [/subscribe] handler attempts its one reply to the chat and
    ends as that delivery ends; whether the reply is delivered or not,
    the chat is listed by [get_subscribed_users] afterwards. *)
Theorem subscribe_handler chat w :
  fst (Handlers.subscribe CURRENT_TIMESTAMP bot_send_message chat w)
  = bot_send_message (List.length (sent w)) chat Handlers.subscribed_reply
  /\ sent (snd (Handlers.subscribe CURRENT_TIMESTAMP bot_send_message
                  chat w))
     = (sent w ++ [(chat, Handlers.subscribed_reply)])%list
  /\ In chat
       (sql_subscribed
          (db (snd (Handlers.subscribe CURRENT_TIMESTAMP bot_send_message
                      chat w)))).
Proof.
  repeat split.
  apply listed_iff. unfold records_of. cbn.
  destruct (existsb (fun r => (chat_id r =? chat)%Z) (users (db w))) eqn:X.
  - rewrite update_subscribed_same.
    pose proof (some_records chat _ X) as N.
    destruct (filter (fun r => (chat_id r =? chat)%Z) (users (db w)))
      as [|r l]; [contradiction | reflexivity].
  - rewrite filter_app, existsb_app. cbn [filter chat_id].
    rewrite Z.eqb_refl. cbn. apply orb_true_r.
Qed.

(** X20. The [/unsubscribe] handler attempts its one reply to the chat,
    also for a chat that never subscribed, and ends as that delivery
    ends; the chat is not listed by [get_subscribed_users] afterwards,
    and no row is added or removed. *)
Theorem unsubscribe_handler chat w :
  fst (Handlers.unsubscribe CURRENT_TIMESTAMP bot_send_message chat w)
  = bot_send_message (List.length (sent w)) chat Handlers.unsubscribed_reply
  /\ sent (snd (Handlers.unsubscribe CURRENT_TIMESTAMP bot_send_message
                  chat w))
     = (sent w ++ [(chat, Handlers.unsubscribed_reply)])%list
  /\ ~ In chat
       (sql_subscribed
          (db (snd (Handlers.unsubscribe CURRENT_TIMESTAMP bot_send_message
                      chat w))))
  /\ map chat_id
       (users (db (snd (Handlers.unsubscribe CURRENT_TIMESTAMP
                          bot_send_message chat w))))
     = map chat_id (users (db w)).
Proof.
  repeat split.
  - apply not_listed. unfold records_of. cbn.
    rewrite update_subscribed_same. apply Forall_forall.
    intros r Hin. apply in_map_iff in Hin. destruct Hin as [r0 [<- _]].
    reflexivity.
  - cbn. apply update_subscribed_chat_ids.
Qed.

End Pipeline.

Lemma resolver_keeps_uniqueness_witness :
  let w' :=
    snd (get_new_unique_word lower_ascii noon
           (stub (Some "Terse", Some "brief", Some "Be terse."))
           lucid_world) in
  content_unique lower_ascii (db w')
  /\ NoDup (map word (content (db w')))
  /\ users_unique (db w').
Proof.
  apply (resolver_keeps_uniqueness lower_ascii noon
           (stub (Some "Terse", Some "brief", Some "Be terse."))
           lucid_world).
  - repeat constructor. intros [].
  - constructor.
Defined.

Lemma send_daily_word_without_a_word_witness :
  (fst (send_daily_word lower_ascii noon (stub lucid) blocked_2 lucid_world)
   = Return tt
   /\ sent (snd (send_daily_word lower_ascii noon (stub lucid) blocked_2
                   lucid_world))
      = sent lucid_world
   /\ stdout (snd (send_daily_word lower_ascii noon (stub lucid) blocked_2
                     lucid_world))
      = (stdout (snd (get_new_unique_word lower_ascii noon (stub lucid)
                        lucid_world))
         ++ ["Failed to generate unique word."])%list
   /\ db (snd (send_daily_word lower_ascii noon (stub lucid) blocked_2
                 lucid_world))
      = db lucid_world)
  /\ (fst (send_daily_word lower_ascii noon
             (fun _ => ([], Raise (Exn ConnectionError "unreachable")))
             blocked_2 lucid_world)
      = Raise (Exn ConnectionError "unreachable")
      /\ sent (snd (send_daily_word lower_ascii noon
                      (fun _ => ([], Raise (Exn ConnectionError
                                              "unreachable")))
                      blocked_2 lucid_world))
         = sent lucid_world
      /\ snd (send_daily_word lower_ascii noon
                (fun _ => ([], Raise (Exn ConnectionError "unreachable")))
                blocked_2 lucid_world)
         = snd (get_new_unique_word lower_ascii noon
                  (fun _ => ([], Raise (Exn ConnectionError "unreachable")))
                  lucid_world)).
Proof.
  split.
  - apply (proj1 (send_daily_word_without_a_word lower_ascii noon
                    (stub lucid) blocked_2 lucid_world)
             None None None); reflexivity.
  - apply (proj2 (send_daily_word_without_a_word lower_ascii noon
                    (fun _ => ([], Raise (Exn ConnectionError "unreachable")))
                    blocked_2 lucid_world)
             (Exn ConnectionError "unreachable")).
    reflexivity.
Defined.

Lemma send_daily_word_delivers_witness :
  let w :=
    snd (handle_all noon [Subscribe 1; Subscribe 2; Subscribe 3]%Z
           fresh_world) in
  fst (send_daily_word lower_ascii noon (stub lucid) blocked_2 w) = Return tt
  /\ sent (snd (send_daily_word lower_ascii noon (stub lucid) blocked_2 w))
     = (sent w ++
        map (fun c => (c, daily_message (Some "lucid") (Some "clear")
                            (Some "a lucid explanation")))
          (sql_subscribed (db w)))%list
  /\ db (snd (send_daily_word lower_ascii noon (stub lucid) blocked_2 w))
     = db (snd (get_new_unique_word lower_ascii noon (stub lucid) w)).
Proof.
  apply (send_daily_word_delivers lower_ascii noon (stub lucid) blocked_2
           (snd (handle_all noon [Subscribe 1; Subscribe 2; Subscribe 3]%Z
                   fresh_world))
           (Some "lucid") (Some "clear") (Some "a lucid explanation")).
  - reflexivity.
  - reflexivity.
  - intros k c e _. unfold blocked_2.
    destruct (c =? 2)%Z; [|discriminate].
    intros [= <-]. reflexivity.
Defined.

(** [/iknow] in a chat that is not subscribed: the word is stored and
    sent to that chat alone. *)
Example regenerate_word_for_one_chat :
  let w := snd (handle_all noon [Subscribe 1; Subscribe 2]%Z fresh_world) in
  let w' :=
    snd (Handlers.regenerate_word lower_ascii noon (stub lucid) blocked_2
           9 w) in
  sent w' = [(9%Z, Handlers.new_word_message (Some "lucid") (Some "clear")
                     (Some "a lucid explanation"))]
  /\ map word (content (db w')) = ["lucid"].
Proof. split; reflexivity. Qed.
